(** * CC_Monolith: the [products] and [cart] modules

    A shallow embedding of [products/__init__.py] and [cart/__init__.py].
    Python values are a small dynamic universe, exceptions are an error
    result, and the data-access layer (the [dao] modules both files import)
    is an interface over an abstract store; every call made to it is
    recorded, so that "the DAO was (not) written to" is a statement about
    the recorded calls. *)

From Stdlib Require Import ZArith List String Ascii Bool Lia Permutation DecimalString.
From Stdlib Require Import Floats.SpecFloat.
Import ListNotations.
Set Warnings "-register-all".
Local Open Scope string_scope.
Local Open Scope Z_scope.

(** ** Python values *)

(** A [float] is an IEEE-754 binary64 value. *)
Definition float := spec_float.

(** The values that travel between the DAO, [json.loads] and the two
    modules.  A [str] is a Rocq string, one character per code point, for
    the code points below 256; a [dict] keeps its items in insertion order,
    as Python's does. *)
Inductive PyVal : Type :=
| VNone
| VBool (b : bool)
| VInt (z : Z)
| VFloat (f : float)
| VStr (s : string)
| VList (l : list PyVal)
| VDict (d : list (PyVal * PyVal)).

(** The classes of [Exception] the code raises, names or can meet.
    [JSONDecodeError] is a subclass of [ValueError]; [RecursionError] is
    what the interpreter raises at its recursion limit; [StoreError] stands
    for whatever exception class a DAO raises on its own account. *)
Inductive exn : Type :=
| KeyError
| ValueError
| TypeError
| JSONDecodeError
| OverflowError
| AttributeError
| RecursionError
| StoreError (msg : string).

Inductive result (A : Type) : Type :=
| Ok (a : A)
| Raise (e : exn).
Arguments Ok {A} a.
Arguments Raise {A} e.

Definition rbind {A B} (r : result A) (k : A -> result B) : result B :=
  match r with
  | Ok a => k a
  | Raise e => Raise e
  end.

Declare Scope res_scope.
Delimit Scope res_scope with res.
Notation "x <- c1 ;; c2" := (rbind c1 (fun x => c2))
  (at level 100, c1 at next level, right associativity) : res_scope.

(** [isinstance(e, ValueError)], [isinstance(e, TypeError)] and
    [isinstance(e, KeyError)]. *)
Definition is_ValueError (e : exn) : bool :=
  match e with
  | ValueError | JSONDecodeError => true
  | _ => false
  end.

Definition is_TypeError (e : exn) : bool :=
  match e with
  | TypeError => true
  | _ => false
  end.

Definition is_KeyError (e : exn) : bool :=
  match e with
  | KeyError => true
  | _ => false
  end.

Definition is_JSONDecodeError (e : exn) : bool :=
  match e with
  | JSONDecodeError => true
  | _ => false
  end.

(** ** Numbers *)

Definition prec64 : Z := 53.
Definition emax64 : Z := 1024.

(** [isinstance(v, int)]: [bool] is a subclass of [int]. *)
Definition int_value (v : PyVal) : option Z :=
  match v with
  | VInt z => Some z
  | VBool b => Some (if b then 1 else 0)
  | _ => None
  end.

Definition isinstance_int (v : PyVal) : bool :=
  match int_value v with
  | Some _ => true
  | None => false
  end.

Definition isinstance_str (v : PyVal) : bool :=
  match v with
  | VStr _ => true
  | _ => false
  end.

(** [isinstance(v, (int, float))]. *)
Definition isinstance_number (v : PyVal) : bool :=
  match v with
  | VFloat _ => true
  | _ => isinstance_int v
  end.

(** [f >= 0] and [f == 0] for a float. *)
Definition float_ge0 (f : float) : bool := SFleb (S754_zero false) f.

Definition float_is_zero (f : float) : bool :=
  match f with
  | S754_zero _ => true
  | _ => false
  end.

(** [float(z)] for an int: round to nearest, ties to even; an int beyond
    the range of a double raises [OverflowError]. *)
Definition float_of_int (z : Z) : result float :=
  match binary_normalize prec64 emax64 z 0 false with
  | S754_infinity _ => Raise OverflowError
  | f => Ok f
  end.

(** [int(f)] for a float: truncation towards zero. *)
Definition int_of_float (f : float) : result Z :=
  match f with
  | S754_zero _ => Ok 0
  | S754_infinity _ => Raise OverflowError
  | S754_nan => Raise ValueError
  | S754_finite s m e => Ok (cond_Zopp s (Z.shiftl (Zpos m) e))
  end.

(** [f == z] for a float and an int, compared exactly. *)
Definition float_eq_int (f : float) (z : Z) : bool :=
  match f with
  | S754_zero _ => z =? 0
  | S754_finite s m e =>
      if 0 <=? e then cond_Zopp s (Z.shiftl (Zpos m) e) =? z
      else (Z.land (Zpos m) (Z.ones (- e)) =? 0)
           && (cond_Zopp s (Z.shiftl (Zpos m) e) =? z)
  | _ => false
  end.

(** ** Truth value, subscripts, iteration *)

(** [bool(v)], as [if v:] and [not v] use it. *)
Definition truthy (v : PyVal) : bool :=
  match v with
  | VNone => false
  | VBool b => b
  | VInt z => negb (z =? 0)
  | VFloat f => negb (float_is_zero f)
  | VStr s => negb (s =? "")%string
  | VList l => match l with [] => false | _ => true end
  | VDict d => match d with [] => false | _ => true end
  end.

(** Lookup of a [str] key in the items of a dict. *)
Fixpoint dict_lookup (d : list (PyVal * PyVal)) (k : string) : option PyVal :=
  match d with
  | [] => None
  | (VStr k', v) :: rest => if (k' =? k)%string then Some v else dict_lookup rest k
  | _ :: rest => dict_lookup rest k
  end.

(** [v[k]] for a [str] key [k]: a dict looks the key up, every other value
    of the universe refuses a [str] subscript. *)
Definition getitem (v : PyVal) (k : string) : result PyVal :=
  match v with
  | VDict d =>
      match dict_lookup d k with
      | Some x => Ok x
      | None => Raise KeyError
      end
  | _ => Raise TypeError
  end.

(** [v.get(k, dflt)]: only a dict has the method. *)
Definition get_default (v : PyVal) (k : string) (dflt : PyVal) : result PyVal :=
  match v with
  | VDict d =>
      match dict_lookup d k with
      | Some x => Ok x
      | None => Ok dflt
      end
  | _ => Raise AttributeError
  end.

Fixpoint chars (s : string) : list PyVal :=
  match s with
  | EmptyString => []
  | String c rest => VStr (String c EmptyString) :: chars rest
  end.

(** [iter(v)]: the elements of a list, the keys of a dict, the characters of
    a str; nothing else is iterable. *)
Definition py_iter (v : PyVal) : result (list PyVal) :=
  match v with
  | VList l => Ok l
  | VDict d => Ok (map fst d)
  | VStr s => Ok (chars s)
  | _ => Raise TypeError
  end.

(** ** Strings *)

(** [str.isspace] on one character: the code points Python counts as
    whitespace, within the range of a character of the model. *)
Definition is_space (c : ascii) : bool :=
  let n := nat_of_ascii c in
  ((9 <=? n) && (n <=? 13) || (28 <=? n) && (n <=? 32)
   || (n =? 133) || (n =? 160))%nat.

Definition is_empty (s : string) : bool :=
  match s with
  | EmptyString => true
  | _ => false
  end.

Fixpoint lstrip (s : string) : string :=
  match s with
  | EmptyString => EmptyString
  | String c rest => if is_space c then lstrip rest else s
  end.

Fixpoint rstrip (s : string) : string :=
  match s with
  | EmptyString => EmptyString
  | String c rest =>
      let rest' := rstrip rest in
      if is_space c && is_empty rest' then EmptyString else String c rest'
  end.

(** [s.strip()]. *)
Definition strip (s : string) : string := rstrip (lstrip s).

(** ** Sets of hashable values *)

Definition hashable (v : PyVal) : bool :=
  match v with
  | VList _ | VDict _ => false
  | _ => true
  end.

(** [a == b] on hashable values: numbers compare by value across [bool],
    [int] and [float]; a NaN equals nothing. *)
Definition py_eqb (a b : PyVal) : bool :=
  match a, b with
  | VNone, VNone => true
  | VStr s, VStr t => (s =? t)%string
  | VFloat f, VFloat g => SFeqb f g
  | VFloat f, _ =>
      match int_value b with
      | Some z => float_eq_int f z
      | None => false
      end
  | _, VFloat g =>
      match int_value a with
      | Some z => float_eq_int g z
      | None => false
      end
  | _, _ =>
      match int_value a, int_value b with
      | Some x, Some y => x =? y
      | _, _ => false
      end
  end.

(** [a is b or a == b], the test of a set on its members.  Two values
    of the universe that are equal are told apart by no operation of the
    code, so that identity matters for the one value that is not equal to
    itself: the members of the set of [get_cart] come from [json.loads],
    which answers one and the same object for every NaN. *)
Definition set_eqb (a b : PyVal) : bool :=
  match a, b with
  | VFloat S754_nan, VFloat S754_nan => true
  | _, _ => py_eqb a b
  end.

Definition set_mem (x : PyVal) (s : list PyVal) : bool :=
  existsb (set_eqb x) s.

(** [s.add(x)] on a set kept as the list of its members. *)
Definition set_add (x : PyVal) (s : list PyVal) : list PyVal :=
  if set_mem x s then s else s ++ [x].

(** The runtime library, as far as the two modules rely on it: the text
    parsers behind [int(s)] and [float(s)]; [str(v)] of a value that is not
    a str, which the interpreter refuses with a [ValueError] when an int
    has more digits than its limit; the decoder behind [json.loads], which
    answers a value or raises, a [JSONDecodeError] on a text that is not
    JSON and, in CPython, also a plain [ValueError] on an integer literal
    beyond the limit of digits and a [RecursionError] on deep nesting; and
    the order in which a set is iterated, which Python leaves open: any
    order that visits each member once. *)
Class PyRuntime : Type := {
  int_of_str : string -> option Z;
  float_of_str : string -> option float;
  repr : PyVal -> option string;
  json_decode : string -> result PyVal;
  set_iter : list PyVal -> list PyVal;
  set_iter_perm : forall s, Permutation (set_iter s) s
}.

(** ** Conversions *)

Section Conversions.
Context {rt : PyRuntime}.

(** [int(v)]. *)
Definition py_int (v : PyVal) : result Z :=
  match v with
  | VInt z => Ok z
  | VBool b => Ok (if b then 1 else 0)
  | VFloat f => int_of_float f
  | VStr s =>
      match int_of_str s with
      | Some z => Ok z
      | None => Raise ValueError
      end
  | _ => Raise TypeError
  end.

(** [float(v)]. *)
Definition py_float (v : PyVal) : result float :=
  match v with
  | VFloat f => Ok f
  | VInt z => float_of_int z
  | VBool b => float_of_int (if b then 1 else 0)
  | VStr s =>
      match float_of_str s with
      | Some f => Ok f
      | None => Raise ValueError
      end
  | _ => Raise TypeError
  end.

(** [str(v)]. *)
Definition py_str (v : PyVal) : result string :=
  match v with
  | VStr s => Ok s
  | _ =>
      match repr v with
      | Some s => Ok s
      | None => Raise ValueError
      end
  end.

(** [json.loads(v)]: only text is decoded. *)
Definition json_loads (v : PyVal) : result PyVal :=
  match v with
  | VStr s => json_decode s
  | _ => Raise TypeError
  end.
End Conversions.

(** ** The Product class *)

(** A dataclass does not check its annotations, so a field holds any
    value; [validate] is what looks at the types. *)
Record Product : Type := mkProduct {
  p_id : PyVal;
  p_name : PyVal;
  p_description : PyVal;
  p_cost : PyVal;
  p_qty : PyVal
}.

Module ProductClass.
Section ProductClass.
Context {rt : PyRuntime}.

(** The body of the [try] of [Product.from_dict]: the five arguments are
    evaluated from left to right. *)
Definition build (data : PyVal) : result Product :=
  (raw_id <- getitem data "id";;
   id <- py_int raw_id;;
   raw_name <- getitem data "name";;
   name <- py_str raw_name;;
   raw_description <- getitem data "description";;
   description <- py_str raw_description;;
   raw_cost <- getitem data "cost";;
   cost <- py_float raw_cost;;
   raw_qty <- get_default data "qty" (VInt 0);;
   qty <- py_int raw_qty;;
   Ok (mkProduct (VInt id) (VStr name) (VStr description)
                 (VFloat cost) (VInt qty)))%res.

(** [Product.from_dict]: a [KeyError], [ValueError] or [TypeError] of
    the body is raised again as a [ValueError]; anything else passes. *)
Definition from_dict (data : PyVal) : result Product :=
  match build data with
  | Ok p => Ok p
  | Raise e =>
      if is_KeyError e || is_ValueError e || is_TypeError e
      then Raise ValueError
      else Raise e
  end.

(** [Product.to_dict]. *)
Definition to_dict (p : Product) : PyVal :=
  VDict [ (VStr "id", p_id p);
          (VStr "name", p_name p);
          (VStr "description", p_description p);
          (VStr "cost", p_cost p);
          (VStr "qty", p_qty p) ].

(** [v > 0] and [v >= 0] where the code has checked [v] to be a number. *)
Definition int_gt0 (v : PyVal) : bool :=
  match int_value v with
  | Some z => 0 <? z
  | None => false
  end.

Definition int_ge0 (v : PyVal) : bool :=
  match int_value v with
  | Some z => 0 <=? z
  | None => false
  end.

Definition number_ge0 (v : PyVal) : bool :=
  match v with
  | VFloat f => float_ge0 f
  | _ => int_ge0 v
  end.

(** [len(v.strip()) > 0] where the code has checked [v] to be a str. *)
Definition nonblank (v : PyVal) : bool :=
  match v with
  | VStr s => (0 <? length (strip s))%nat
  | _ => false
  end.

(** [Product.validate]. *)
Definition validate (p : Product) : bool :=
  isinstance_int (p_id p) && int_gt0 (p_id p) &&
  isinstance_str (p_name p) && nonblank (p_name p) &&
  isinstance_str (p_description p) &&
  isinstance_number (p_cost p) && number_ge0 (p_cost p) &&
  isinstance_int (p_qty p) && int_ge0 (p_qty p).
End ProductClass.
End ProductClass.

(** ** The data-access layer *)

(** The calls the two modules make to their [dao]. *)
Inductive Call : Type :=
| CGetCart (username : PyVal)
| CAddToCart (username product_id : PyVal)
| CRemoveFromCart (username product_id : PyVal)
| CDeleteCart (username : PyVal)
| CListProducts
| CGetProduct (product_id : PyVal)
| CAddProduct (fields : PyVal)
| CUpdateQty (product_id qty : PyVal).

(** [products.dao] and [cart.dao] are not among the sources; they are an
    interface here.  An operation returns a value or raises, and leaves the
    store in a new state, whatever it did. *)
Record DAO (Store : Type) : Type := mkDAO {
  dao_get_cart : PyVal -> Store -> result PyVal * Store;
  dao_add_to_cart : PyVal -> PyVal -> Store -> result PyVal * Store;
  dao_remove_from_cart : PyVal -> PyVal -> Store -> result PyVal * Store;
  dao_delete_cart : PyVal -> Store -> result PyVal * Store;
  dao_list_products : Store -> result PyVal * Store;
  dao_get_product : PyVal -> Store -> result PyVal * Store;
  dao_add_product : PyVal -> Store -> result PyVal * Store;
  dao_update_qty : PyVal -> PyVal -> Store -> result PyVal * Store
}.
Arguments dao_get_cart {Store} _ _ _.
Arguments dao_add_to_cart {Store} _ _ _ _.
Arguments dao_remove_from_cart {Store} _ _ _ _.
Arguments dao_delete_cart {Store} _ _ _.
Arguments dao_list_products {Store} _ _.
Arguments dao_get_product {Store} _ _ _.
Arguments dao_add_product {Store} _ _ _.
Arguments dao_update_qty {Store} _ _ _ _.

(** What a run sees: the store, and the DAO calls made so far. *)
Record World (Store : Type) : Type := mkWorld {
  store : Store;
  calls : list Call
}.
Arguments mkWorld {Store} _ _.
Arguments store {Store} _.
Arguments calls {Store} _.

(** Computations that may raise and that act on the world. *)
Definition M (Store A : Type) : Type := World Store -> result A * World Store.

Definition ret {Store A} (a : A) : M Store A := fun w => (Ok a, w).

Definition raise {Store A} (e : exn) : M Store A := fun w => (Raise e, w).

Definition bind {Store A B} (m : M Store A) (k : A -> M Store B) : M Store B :=
  fun w =>
    match m w with
    | (Ok a, w') => k a w'
    | (Raise e, w') => (Raise e, w')
    end.

Definition lift {Store A} (r : result A) : M Store A := fun w => (r, w).

(** [try: m  except ...: h], the handler deciding what it catches. *)
Definition try_except {Store A} (m : M Store A) (h : exn -> M Store A) : M Store A :=
  fun w =>
    match m w with
    | (Ok a, w') => (Ok a, w')
    | (Raise e, w') => h e w'
    end.

(** One call to the DAO, recorded. *)
Definition call {Store} (c : Call) (op : Store -> result PyVal * Store) : M Store PyVal :=
  fun w =>
    let (r, s') := op (store w) in
    (r, mkWorld s' (calls w ++ [c])).

Declare Scope m_scope.
Delimit Scope m_scope with M.
Notation "x <- c1 ;; c2" := (bind c1 (fun x => c2))
  (at level 100, c1 at next level, right associativity) : m_scope.
Notation "c1 ;;; c2" := (bind c1 (fun _ => c2))
  (at level 100, right associativity) : m_scope.

(** ** products/__init__.py *)

Section Products.
Context {rt : PyRuntime} {Store : Type} (dao : DAO Store).
Import ProductClass.

(** The list comprehension of [list_products]: rows that are falsy are
    skipped, the first row that does not parse ends the comprehension. *)
Fixpoint parse_rows (rows : list PyVal) : result (list Product) :=
  match rows with
  | [] => Ok []
  | row :: rest =>
      if truthy row
      then (p <- from_dict row;; ps <- parse_rows rest;; Ok (p :: ps))%res
      else parse_rows rest
  end.

Definition list_products : M Store (list Product) :=
  try_except
    (products_data <- call CListProducts (dao_list_products dao);;
     rows <- lift (py_iter products_data);;
     lift (parse_rows rows))%M
    (fun _ => ret []).

Definition get_product (product_id : PyVal) : M Store (option Product) :=
  try_except
    (product_data <- call (CGetProduct product_id) (dao_get_product dao product_id);;
     if truthy product_data
     then (p <- lift (from_dict product_data);; ret (Some p))
     else ret None)%M
    (fun _ => ret None).

Definition add_product (product : PyVal) : M Store bool :=
  try_except
    (product_instance <- lift (from_dict product);;
     if negb (validate product_instance)
     then ret false
     else (call (CAddProduct (to_dict product_instance))
                (dao_add_product dao (to_dict product_instance)) ;;;
           ret true))%M
    (fun _ => ret false).

(** [qty < 0] where the code has checked [qty] to be an int. *)
Definition int_lt0 (v : PyVal) : bool :=
  match int_value v with
  | Some z => z <? 0
  | None => false
  end.

(** [not product] for what [get_product] returned: an instance of a
    dataclass is always true, [None] never. *)
Definition absent (p : option Product) : bool :=
  match p with
  | Some _ => false
  | None => true
  end.

Definition update_qty (product_id qty : PyVal) : M Store bool :=
  try_except
    ((if negb (isinstance_int qty) || int_lt0 qty
      then raise ValueError else ret tt) ;;;
     found <- get_product product_id;;
     (if absent found then raise ValueError else ret tt) ;;;
     call (CUpdateQty product_id qty) (dao_update_qty dao product_id qty) ;;;
     ret true)%M
    (fun _ => ret false).

(** [results[k] = v] on the items of a dict. *)
Fixpoint dict_set (d : list (PyVal * bool)) (k : PyVal) (v : bool)
  : list (PyVal * bool) :=
  match d with
  | [] => [(k, v)]
  | (k', v') :: rest =>
      if py_eqb k' k then (k', v) :: rest else (k', v') :: dict_set rest k v
  end.

(** The loop of [batch_update_qty] over [updates.items()]. *)
Fixpoint batch_loop (items : list (PyVal * PyVal)) (results : list (PyVal * bool))
  : M Store (list (PyVal * bool)) :=
  match items with
  | [] => ret results
  | (product_id, qty) :: rest =>
      (ok <- update_qty product_id qty;;
       batch_loop rest (dict_set results product_id ok))%M
  end.

Definition batch_update_qty (updates : list (PyVal * PyVal))
  : M Store (list (PyVal * bool)) :=
  batch_loop updates [].
End Products.

(** ** cart/__init__.py *)

(** What a field of a Cart that is meant for Products can hold: a plain
    value, a Product, or a list of such. *)
Inductive Obj : Type :=
| OVal (v : PyVal)
| OProduct (p : Product)
| OList (l : list Obj).

(** The Cart dataclass; as for Product, no annotation is checked. *)
Record Cart : Type := mkCart {
  c_id : PyVal;
  c_username : PyVal;
  c_contents : Obj;
  c_cost : PyVal
}.

Module CartClass.

(** [Cart.from_dict]: the four subscripts, from left to right, and no
    conversion. *)
Definition from_dict (data : PyVal) : result Cart :=
  (id <- getitem data "id";;
   username <- getitem data "username";;
   contents <- getitem data "contents";;
   cost <- getitem data "cost";;
   Ok (mkCart id username (OVal contents) cost))%res.

(** [iter(self.contents)]: a Product is not iterable. *)
Definition members (contents : Obj) : result (list Obj) :=
  match contents with
  | OList l => Ok l
  | OVal v => (items <- py_iter v;; Ok (map OVal items))%res
  | OProduct _ => Raise TypeError
  end.

(** [product.id]: of the values at hand only a Product has the
    attribute. *)
Definition attr_id (o : Obj) : result PyVal :=
  match o with
  | OProduct p => Ok (p_id p)
  | _ => Raise AttributeError
  end.

(** [[product.id for product in ...]]. *)
Fixpoint ids_of (l : list Obj) : result (list PyVal) :=
  match l with
  | [] => Ok []
  | o :: rest => (id <- attr_id o;; ids <- ids_of rest;; Ok (id :: ids))%res
  end.

(** [Cart.to_dict]. *)
Definition to_dict (c : Cart) : result PyVal :=
  (products <- members (c_contents c);;
   ids <- ids_of products;;
   Ok (VDict [ (VStr "id", c_id c);
               (VStr "username", c_username c);
               (VStr "contents", VList ids);
               (VStr "cost", c_cost c) ]))%res.
End CartClass.

Section Cart.
Context {rt : PyRuntime} {Store : Type} (dao : DAO Store).

(** [product_ids.update(contents)]: members are added one by one, and the
    members added before an unhashable one stay in the set. *)
Fixpoint set_add_all (ids items : list PyVal) : list PyVal * result unit :=
  match items with
  | [] => (ids, Ok tt)
  | x :: rest =>
      if hashable x then set_add_all (set_add x ids) rest
      else (ids, Raise TypeError)
  end.

Definition set_update (ids : list PyVal) (contents : PyVal)
  : list PyVal * result unit :=
  match py_iter contents with
  | Ok items => set_add_all ids items
  | Raise e => (ids, Raise e)
  end.

(** The body of the [try] in the first loop of [get_cart]. *)
Definition read_row (ids : list PyVal) (detail : PyVal)
  : list PyVal * result unit :=
  match (raw <- getitem detail "contents";; json_loads raw)%res with
  | Ok contents => set_update ids contents
  | Raise e => (ids, Raise e)
  end.

(** One turn of that loop, with its
    [except (json.JSONDecodeError, TypeError, KeyError): continue]. *)
Definition collect_row (ids : list PyVal) (detail : PyVal) : result (list PyVal) :=
  match read_row ids detail with
  | (ids', Ok _) => Ok ids'
  | (ids', Raise e) =>
      if is_JSONDecodeError e || is_TypeError e || is_KeyError e
      then Ok ids' else Raise e
  end.

Fixpoint collect_ids (details ids : list PyVal) : result (list PyVal) :=
  match details with
  | [] => Ok ids
  | detail :: rest => (ids' <- collect_row ids detail;; collect_ids rest ids')%res
  end.

(** The second loop of [get_cart]. *)
Fixpoint resolve_loop (product_ids : list PyVal) (products : list Product)
  : M Store (list Product) :=
  match product_ids with
  | [] => ret products
  | product_id :: rest =>
      (product <- get_product dao product_id;;
       match product with
       | Some p => resolve_loop rest (products ++ [p])
       | None => resolve_loop rest products
       end)%M
  end.

Definition get_cart (username : PyVal) : M Store (list Product) :=
  (cart_details <- call (CGetCart username) (dao_get_cart dao username);;
   if negb (truthy cart_details) then ret []
   else
     (details <- lift (py_iter cart_details);;
      product_ids <- lift (collect_ids details []);;
      resolve_loop (set_iter product_ids) []))%M.

Definition add_to_cart (username product_id : PyVal) : M Store bool :=
  try_except
    (call (CAddToCart username product_id)
          (dao_add_to_cart dao username product_id) ;;;
     ret true)%M
    (fun _ => ret false).

Definition remove_from_cart (username product_id : PyVal) : M Store bool :=
  try_except
    (call (CRemoveFromCart username product_id)
          (dao_remove_from_cart dao username product_id) ;;;
     ret true)%M
    (fun _ => ret false).

Definition delete_cart (username : PyVal) : M Store bool :=
  try_except
    (call (CDeleteCart username) (dao_delete_cart dao username) ;;;
     ret true)%M
    (fun _ => ret false).
End Cart.

(** ** A runtime and stores to run the code on *)

Module Reference.

(** Decimal text of an integer, and back. *)
Definition show_int (z : Z) : string := NilZero.string_of_int (Z.to_int z).

Definition read_int (s : string) : option Z :=
  option_map Z.of_int (NilZero.int_of_string s).

(** Splits the text of a JSON array at its commas, up to the closing
    bracket, after which nothing may follow. *)
Fixpoint split_items (s cur : string) (acc : list string) : option (list string) :=
  match s with
  | EmptyString => None
  | String c rest =>
      if (c =? "]")%char
      then (if is_empty (strip rest) then Some (acc ++ [cur])%list else None)
      else if (c =? ",")%char then split_items rest "" (acc ++ [cur])%list
      else split_items rest (cur ++ String c "")%string acc
  end.

Fixpoint read_ints (items : list string) : option (list PyVal) :=
  match items with
  | [] => Some []
  | item :: rest =>
      match read_int (strip item), read_ints rest with
      | Some z, Some zs => Some (VInt z :: zs)
      | _, _ => None
      end
  end.

(** A decoder for the JSON texts a cart row holds: arrays of integers. *)
Definition decode_ids (s : string) : option PyVal :=
  match strip s with
  | String c rest =>
      if (c =? "[")%char
      then match split_items rest "" [] with
           | Some [item] =>
               if is_empty (strip item) then Some (VList [])
               else option_map VList (read_ints [item])
           | Some items => option_map VList (read_ints items)
           | None => None
           end
      else None
  | EmptyString => None
  end.

(** The decoder as [json.loads] uses it: a text that is no array of
    integers is refused with a [JSONDecodeError]. *)
Definition decode (s : string) : result PyVal :=
  match decode_ids s with
  | Some v => Ok v
  | None => Raise JSONDecodeError
  end.

(** The decoder of an interpreter whose limit on the digits of an integer
    is [digits]: an array with a longer integer is refused with a plain
    [ValueError]. *)
Definition decode_limited (digits : nat) (s : string) : result PyVal :=
  match decode_ids s with
  | Some (VList items) =>
      if forallb (fun v => match v with
                           | VInt z => Z.abs z <? 10 ^ Z.of_nat digits
                           | _ => true
                           end) items
      then Ok (VList items)
      else Raise ValueError
  | Some v => Ok v
  | None => Raise JSONDecodeError
  end.

Definition show (v : PyVal) : string :=
  match v with
  | VNone => "None"
  | VBool true => "True"
  | VBool false => "False"
  | VInt z => show_int z
  | VStr s => s
  | _ => "<object>"
  end.

(** A runtime that reads decimal integers, decodes arrays of integers and
    iterates a set in the order of insertion. *)
#[export] Instance runtime : PyRuntime := {|
  int_of_str := read_int;
  float_of_str := fun s =>
    match read_int s with
    | Some z => match float_of_int z with Ok f => Some f | Raise _ => None end
    | None => None
    end;
  repr := fun v => Some (show v);
  json_decode := decode;
  set_iter := fun s => s;
  set_iter_perm := fun s => Permutation_refl s
|}.

(** The same runtime with sets iterated in the opposite order. *)
Definition runtime_rev : PyRuntime := {|
  int_of_str := read_int;
  float_of_str := fun _ => None;
  repr := fun v => Some (show v);
  json_decode := decode;
  set_iter := @rev PyVal;
  set_iter_perm := fun s => Permutation_sym (Permutation_rev s)
|}.

(** The same runtime with a limit on the digits of an integer, for the
    decoder and for [str]. *)
Definition runtime_limited (digits : nat) : PyRuntime := {|
  int_of_str := read_int;
  float_of_str := fun _ => None;
  repr := fun v =>
    match v with
    | VInt z => if Z.abs z <? 10 ^ Z.of_nat digits then Some (show v) else None
    | _ => Some (show v)
    end;
  json_decode := decode_limited digits;
  set_iter := fun s => s;
  set_iter_perm := fun s => Permutation_refl s
|}.

(** The doubles 5.0 and 1.5. *)
Definition five : float := S754_finite false 5629499534213120 (-50).
Definition one_and_a_half : float := S754_finite false 6755399441055744 (-52).

(** Modelled from the spec: the persistence collaborator of its section
    on external interfaces ([products/dao.py] and [cart/dao.py] are not
    among the sources), as tables held in memory: cart rows
    [{id, username, contents, cost}] with [contents] a JSON-encoded list
    of ids, and product rows. *)
Record Tables : Type := mkTables {
  cart_rows : list PyVal;
  product_rows : list PyVal
}.

Definition field_is (k : string) (x row : PyVal) : bool :=
  match getitem row k with
  | Ok v => py_eqb v x
  | Raise _ => false
  end.

Definition cart_row (n : Z) (username : PyVal) (contents : string) : PyVal :=
  VDict [ (VStr "id", VInt n); (VStr "username", username);
          (VStr "contents", VStr contents); (VStr "cost", VFloat (S754_zero false)) ].

Definition product_row (id : Z) (name description : string) (cost : float) (qty : Z)
  : PyVal :=
  VDict [ (VStr "id", VInt id); (VStr "name", VStr name);
          (VStr "description", VStr description);
          (VStr "cost", VFloat cost); (VStr "qty", VInt qty) ].

Definition encode_id (product_id : PyVal) : string :=
  "[" ++ show product_id ++ "]".

Fixpoint set_field (k : string) (x : PyVal) (d : list (PyVal * PyVal))
  : list (PyVal * PyVal) :=
  match d with
  | [] => [(VStr k, x)]
  | (VStr k', v) :: rest =>
      if (k' =? k)%string then (VStr k', x) :: rest
      else (VStr k', v) :: set_field k x rest
  | item :: rest => item :: set_field k x rest
  end.

Definition set_qty (product_id qty row : PyVal) : PyVal :=
  match row with
  | VDict d => if field_is "id" product_id row then VDict (set_field "qty" qty d) else row
  | _ => row
  end.

Definition mem_get_cart (username : PyVal) (t : Tables) : result PyVal * Tables :=
  (Ok (VList (filter (field_is "username" username) (cart_rows t))), t).

Definition mem_add_to_cart (username product_id : PyVal) (t : Tables)
  : result PyVal * Tables :=
  (Ok VNone,
   mkTables (cart_rows t ++ [cart_row (Z.of_nat (List.length (cart_rows t)) + 1)
                                      username (encode_id product_id)])
            (product_rows t)).

Definition mem_remove_from_cart (username product_id : PyVal) (t : Tables)
  : result PyVal * Tables :=
  (Ok VNone,
   mkTables (filter (fun row => negb (field_is "username" username row
                                      && field_is "contents" (VStr (encode_id product_id)) row))
                    (cart_rows t))
            (product_rows t)).

Definition mem_delete_cart (username : PyVal) (t : Tables) : result PyVal * Tables :=
  (Ok VNone,
   mkTables (filter (fun row => negb (field_is "username" username row)) (cart_rows t))
            (product_rows t)).

Definition mem_list_products (t : Tables) : result PyVal * Tables :=
  (Ok (VList (product_rows t)), t).

Definition mem_get_product (product_id : PyVal) (t : Tables) : result PyVal * Tables :=
  (Ok match find (field_is "id" product_id) (product_rows t) with
      | Some row => row
      | None => VNone
      end, t).

Definition mem_add_product (fields : PyVal) (t : Tables) : result PyVal * Tables :=
  (Ok VNone, mkTables (cart_rows t) (product_rows t ++ [fields])).

Definition mem_update_qty (product_id qty : PyVal) (t : Tables) : result PyVal * Tables :=
  (Ok VNone, mkTables (cart_rows t) (map (set_qty product_id qty) (product_rows t))).

Definition mem_dao : DAO Tables :=
  mkDAO Tables mem_get_cart mem_add_to_cart mem_remove_from_cart mem_delete_cart
        mem_list_products mem_get_product mem_add_product mem_update_qty.

(** The same tables behind a connection that drops while a write is
    acknowledged: the write is done, and the call raises. *)
Definition drop_ack (op : Tables -> result PyVal * Tables) (t : Tables)
  : result PyVal * Tables :=
  (Raise (StoreError "connection lost"), snd (op t)).

Definition lossy_dao : DAO Tables :=
  mkDAO Tables mem_get_cart
        (fun u p => drop_ack (mem_add_to_cart u p))
        (fun u p => drop_ack (mem_remove_from_cart u p))
        (fun u => drop_ack (mem_delete_cart u))
        mem_list_products mem_get_product
        (fun d => drop_ack (mem_add_product d))
        (fun p q => drop_ack (mem_update_qty p q)).

(** A store that cannot be reached: every call raises. *)
Definition unreachable {A} (t : A) : result PyVal * A :=
  (Raise (StoreError "unreachable"), t).

Definition unreachable_dao : DAO unit :=
  mkDAO unit (fun _ => unreachable) (fun _ _ => unreachable)
        (fun _ _ => unreachable) (fun _ => unreachable) unreachable
        (fun _ => unreachable) (fun _ => unreachable) (fun _ _ => unreachable).

Definition start {Store} (s : Store) : World Store := mkWorld s [].

Definition widget (id : Z) : PyVal :=
  product_row id "widget" "a widget" five 4.

(** The Product that the row [widget id] parses into. *)
Definition widget_product (id : Z) : Product :=
  mkProduct (VInt id) (VStr "widget") (VStr "a widget")
            (VFloat five) (VInt 4).

(** The fields of a product with its keys in another order and a key
    that is not a field of Product. *)
Definition shuffled_fields : PyVal :=
  VDict [ (VStr "qty", VInt 2); (VStr "colour", VStr "red");
          (VStr "cost", VFloat one_and_a_half);
          (VStr "description", VStr ""); (VStr "id", VInt 7);
          (VStr "name", VStr "nut") ].

(** Products 1, 2 and 3, and two cart rows of alice, [1, 2] and [2, 3]. *)
Definition shop : Tables :=
  mkTables [ cart_row 1 (VStr "alice") "[1, 2]"; cart_row 2 (VStr "alice") "[2, 3]" ]
           [ widget 1; widget 2; widget 3 ].

(** Product 1 alone, and a cart row of alice that also names 99. *)
Definition stale_shop : Tables :=
  mkTables [ cart_row 1 (VStr "alice") "[1, 99]" ] [ widget 1 ].
(** The runtime again, with a decoder that also knows a text whose array
    holds an array, and one whose array holds NaN twice. *)
Definition runtime_nested : PyRuntime := {|
  int_of_str := read_int;
  float_of_str := fun _ => None;
  repr := fun v => Some (show v);
  json_decode := fun s =>
    if (s =? "[1, [2], 3]")%string
    then Ok (VList [VInt 1; VList [VInt 2]; VInt 3])
    else if (s =? "[NaN, NaN]")%string
    then Ok (VList [VFloat S754_nan; VFloat S754_nan])
    else decode s;
  set_iter := fun s => s;
  set_iter_perm := fun s => Permutation_refl s
|}.

(** The fields of a product without the key [qty]. *)
Definition fields_without_qty : list (PyVal * PyVal) :=
  [ (VStr "id", VInt 3); (VStr "name", VStr "bolt");
    (VStr "description", VStr "M4"); (VStr "cost", VFloat five) ].

(** A Cart that holds two Products. *)
Definition alice_cart : Cart :=
  mkCart (VInt 1) (VStr "alice")
         (OList [OProduct (widget_product 1); OProduct (widget_product 2)])
         (VFloat five).

(** Rows of a cart of which the second has no contents and the third
    contents that do not decode. *)
Definition ragged_rows : list PyVal :=
  [ cart_row 1 (VStr "alice") "[1, 2]";
    VDict [(VStr "id", VInt 2); (VStr "username", VStr "alice")];
    cart_row 3 (VStr "alice") "oops";
    cart_row 4 (VStr "alice") "[3]" ].
End Reference.

Local Open Scope list_scope.

(** ** Vocabulary of the statements *)

(** A text made of whitespace only. *)
Definition all_space (s : string) : bool :=
  forallb is_space (list_ascii_of_string s).

(** [0 <= f] read off the value: a NaN is not, a zero of either sign is,
    and otherwise the sign decides. *)
Definition float_nonneg (f : float) : Prop :=
  match f with
  | S754_zero _ => True
  | S754_infinity s => s = false
  | S754_nan => False
  | S754_finite s _ _ => s = false
  end.

(** The calls that write to the store. *)
Definition is_write (c : Call) : bool :=
  match c with
  | CAddToCart _ _ | CRemoveFromCart _ _ | CDeleteCart _
  | CAddProduct _ | CUpdateQty _ _ => true
  | CGetCart _ | CListProducts | CGetProduct _ => false
  end.

Definition is_ok {A} (r : result A) : bool :=
  match r with
  | Ok _ => true
  | Raise _ => false
  end.

(** The members of a list of optional values that are present. *)
Definition present {A} (l : list (option A)) : list A :=
  flat_map (fun o => match o with Some a => [a] | None => [] end) l.

Section Vocabulary.
Context {rt : PyRuntime} {Store : Type} (dao : DAO Store).
Import ProductClass.

(** Fields that [Product.from_dict] cannot build a Product from: one of
    the four required keys cannot be read (it is missing, or the value
    is no dict), or a value does not convert to its type. *)
Definition malformed (fields : PyVal) : Prop :=
  (exists k e, In k ["id"; "name"; "description"; "cost"] /\
               getitem fields k = Raise e) \/
  (exists v e, getitem fields "id" = Ok v /\ py_int v = Raise e) \/
  (exists v e, getitem fields "cost" = Ok v /\ py_float v = Raise e) \/
  (exists v e, get_default fields "qty" (VInt 0) = Ok v /\ py_int v = Raise e) \/
  (exists k v e, In k ["name"; "description"] /\
                 getitem fields k = Ok v /\ py_str v = Raise e).

(** What [get_product] makes of the answer of the DAO. *)
Definition resolution (r : result PyVal) : option Product :=
  match r with
  | Ok product_data =>
      if truthy product_data
      then match from_dict product_data with
           | Ok p => Some p
           | Raise _ => None
           end
      else None
  | Raise _ => None
  end.

(** Entries of a batch run one after the other: each is one
    [update_qty], started in the world the entry before it left behind,
    whatever that entry returned. *)
Inductive batch_run : list (PyVal * PyVal) -> World Store ->
                      list (PyVal * bool) -> World Store -> Prop :=
| batch_done w : batch_run [] w [] w
| batch_step product_id qty rest w ok w1 results w' :
    update_qty dao product_id qty w = (Ok ok, w1) ->
    batch_run rest w1 results w' ->
    batch_run ((product_id, qty) :: rest) w ((product_id, ok) :: results) w'.

(** Ids looked up one after the other with [get_product], with what each
    lookup returned. *)
Inductive lookups : list PyVal -> World Store ->
                    list (option Product) -> World Store -> Prop :=
| lookups_done w : lookups [] w [] w
| lookups_step product_id rest w o w1 os w' :
    get_product dao product_id w = (Ok o, w1) ->
    lookups rest w1 os w' ->
    lookups (product_id :: rest) w (o :: os) w'.

(** In every store that satisfies [Inv], looking [product_id] up gives
    [o] and leaves a store that satisfies [Inv]. *)
Definition resolves_to (Inv : Store -> Prop) (product_id : PyVal)
           (o : option Product) : Prop :=
  forall w, Inv (store w) ->
    exists w', get_product dao product_id w = (Ok o, w') /\ Inv (store w').
(** The exceptions that the [except] clause of [get_cart] names. *)
Definition caught (e : exn) : bool :=
  is_JSONDecodeError e || is_TypeError e || is_KeyError e.

(** A row that the first loop of [get_cart] passes over before it has
    touched the set: reading its contents or decoding them raises, and the
    [except] clause names what is raised. *)
Definition skipped (detail : PyVal) : bool :=
  match (raw <- getitem detail "contents";; json_loads raw)%res with
  | Ok _ => false
  | Raise e => caught e
  end.

(** The calls that one [update_qty] of the entry [(product_id, qty)] may
    make: the lookup of the product, and the write of a quantity that is
    an integer and not negative. *)
Definition entry_call (product_id qty : PyVal) (c : Call) : Prop :=
  c = CGetProduct product_id \/
  (c = CUpdateQty product_id qty /\ exists z, int_value qty = Some z /\ 0 <= z).
End Vocabulary.

(** No member of a set equals a member added before it. *)
Definition no_equal_members (s : list PyVal) : Prop :=
  ForallOrdPairs (fun earlier later => set_eqb later earlier = false) s.

(** [x] is in the set, itself or as a member that equals it. *)
Definition represented (x : PyVal) (s : list PyVal) : Prop :=
  In x s \/ set_mem x s = true.

(** The keys of a dict are pairwise different under [==]. *)
Fixpoint distinct_keys {A} (items : list (PyVal * A)) : Prop :=
  match items with
  | [] => True
  | (k, _) :: rest =>
      (forall k', In k' (map fst rest) -> py_eqb k k' = false) /\ distinct_keys rest
  end.

(** * Properties *)

(** ** Product: parsing, serialisation, validation *)

Section ProductFacts.
Context {rt : PyRuntime}.
Import ProductClass.

Lemma getitem_get_default (data : PyVal) (k : string) (v dflt : PyVal) :
  getitem data k = Ok v -> get_default data k dflt = Ok v.
Proof.
  destruct data; simpl; try discriminate.
  destruct (dict_lookup d k); [congruence | discriminate].
Qed.

(** What [from_dict] builds from fields of the declared types. *)
Lemma from_dict_typed (data : PyVal) (i : Z) (n d : string) (c : float) (q : Z) :
  getitem data "id" = Ok (VInt i) ->
  getitem data "name" = Ok (VStr n) ->
  getitem data "description" = Ok (VStr d) ->
  getitem data "cost" = Ok (VFloat c) ->
  getitem data "qty" = Ok (VInt q) ->
  from_dict data = Ok (mkProduct (VInt i) (VStr n) (VStr d) (VFloat c) (VInt q)).
Proof.
  intros Hi Hn Hd Hc Hq.
  unfold from_dict, build.
  rewrite Hi, Hn, Hd, Hc, (getitem_get_default _ _ _ (VInt 0) Hq).
  reflexivity.
Qed.

(** C4: for every field set that holds the five product fields with
    values of their declared types (int, str, str, float, int), whatever
    the order of the keys and whatever else it holds,
    [Product.from_dict(fields).to_dict()] is the dict of exactly these
    five fields, each with the value it had. *)
Theorem from_dict_to_dict_roundtrip
    (data : PyVal) (i : Z) (n d : string) (c : float) (q : Z) :
  getitem data "id" = Ok (VInt i) ->
  getitem data "name" = Ok (VStr n) ->
  getitem data "description" = Ok (VStr d) ->
  getitem data "cost" = Ok (VFloat c) ->
  getitem data "qty" = Ok (VInt q) ->
  exists p,
    from_dict data = Ok p /\
    to_dict p = VDict [ (VStr "id", VInt i); (VStr "name", VStr n);
                        (VStr "description", VStr d); (VStr "cost", VFloat c);
                        (VStr "qty", VInt q) ] /\
    forall k, In k ["id"; "name"; "description"; "cost"; "qty"] ->
              getitem (to_dict p) k = getitem data k.
Proof.
  intros Hi Hn Hd Hc Hq.
  eexists; split; [exact (from_dict_typed _ _ _ _ _ _ Hi Hn Hd Hc Hq) |].
  split; [reflexivity |].
  intros k Hk; simpl in Hk.
  destruct Hk as [<- | [<- | [<- | [<- | [<- | []]]]]]; simpl; congruence.
Qed.

(** *** Trimming *)

Lemma rstrip_empty (s : string) : is_empty (rstrip s) = all_space s.
Proof.
  unfold all_space.
  induction s as [| c s IH]; simpl; [reflexivity |].
  rewrite <- IH.
  destruct (is_space c), (is_empty (rstrip s)); reflexivity.
Qed.

Lemma lstrip_all_space (s : string) : all_space (lstrip s) = all_space s.
Proof.
  unfold all_space.
  induction s as [| c s IH]; simpl; [reflexivity |].
  destruct (is_space c) eqn:Hc; simpl; [exact IH | now rewrite Hc].
Qed.

Lemma strip_empty (s : string) : is_empty (strip s) = all_space s.
Proof. unfold strip. now rewrite rstrip_empty, lstrip_all_space. Qed.

(** A name is blank after trimming exactly when it has no character
    other than whitespace. *)
Lemma strip_nonempty_iff (s : string) :
  strip s <> "" <->
  exists c, In c (list_ascii_of_string s) /\ is_space c = false.
Proof.
  assert (E : strip s <> "" <-> all_space s = false).
  { rewrite <- strip_empty. destruct (strip s); simpl; split; congruence. }
  rewrite E. unfold all_space. split.
  - intros H.
    induction (list_ascii_of_string s) as [| c l IH]; simpl in H; [discriminate |].
    destruct (is_space c) eqn:Hc.
    + destruct (IH H) as (c' & Hin & Hc'). exists c'. split; [now right | exact Hc'].
    + exists c. split; [now left | exact Hc].
  - intros (c & Hin & Hc).
    destruct (forallb is_space (list_ascii_of_string s)) eqn:Hall; [| reflexivity].
    rewrite forallb_forall in Hall. rewrite (Hall c Hin) in Hc. discriminate.
Qed.

Lemma nonblank_iff (s : string) : nonblank (VStr s) = true <-> strip s <> "".
Proof.
  unfold nonblank.
  destruct (strip s); simpl; split; intros H; try congruence; try discriminate.
  reflexivity.
Qed.

(** *** Comparison of a cost with zero *)

Lemma float_ge0_iff (f : float) : float_ge0 f = true <-> float_nonneg f.
Proof.
  unfold float_ge0, SFleb.
  destruct f as [s | s | | s m e]; simpl; try destruct s; simpl;
    split; intros H; try reflexivity; try discriminate; try exact I;
    try contradiction.
Qed.

(** C5: on a Product whose fields have their declared types,
    [validate()] is true if and only if the id is greater than 0, the
    name is not empty once trimmed, the cost is at least 0 and the qty is
    at least 0. *)
Theorem validate_iff (i : Z) (n d : string) (c : float) (q : Z) :
  validate (mkProduct (VInt i) (VStr n) (VStr d) (VFloat c) (VInt q)) = true <->
  0 < i /\ strip n <> "" /\ float_nonneg c /\ 0 <= q.
Proof.
  unfold validate; simpl.
  rewrite <- nonblank_iff, <- float_ge0_iff.
  unfold int_gt0, int_ge0, number_ge0; simpl.
  rewrite !andb_true_r, !andb_true_iff, Z.ltb_lt, Z.leb_le.
  tauto.
Qed.
(** On any Product, typed or not: [validate()] holds exactly when every
    field is an instance of its class and meets its bound. *)
Lemma validate_true_iff (p : Product) :
  validate p = true <->
  (exists i, int_value (p_id p) = Some i /\ 0 < i) /\
  (exists n, p_name p = VStr n /\ strip n <> "") /\
  (exists d, p_description p = VStr d) /\
  ((exists c, p_cost p = VFloat c /\ float_nonneg c) \/
   (exists z, int_value (p_cost p) = Some z /\ 0 <= z)) /\
  (exists q, int_value (p_qty p) = Some q /\ 0 <= q).
Proof.
  assert (Hpos : forall v, isinstance_int v && int_gt0 v = true <->
                           exists i, int_value v = Some i /\ 0 < i).
  { intros v. unfold isinstance_int, int_gt0.
    destruct (int_value v) as [i |]; simpl.
    - rewrite Z.ltb_lt. split; [intros H; now exists i | now intros (j & [= <-] & H)].
    - split; [discriminate | now intros (j & Hj & _)]. }
  assert (Hnat : forall v, isinstance_int v && int_ge0 v = true <->
                           exists i, int_value v = Some i /\ 0 <= i).
  { intros v. unfold isinstance_int, int_ge0.
    destruct (int_value v) as [i |]; simpl.
    - rewrite Z.leb_le. split; [intros H; now exists i | now intros (j & [= <-] & H)].
    - split; [discriminate | now intros (j & Hj & _)]. }
  assert (Hname : forall v, isinstance_str v && nonblank v = true <->
                            exists n, v = VStr n /\ strip n <> "").
  { intros v. destruct v; simpl;
      try (split; [discriminate | now intros (n & Hn & _)]).
    rewrite (nonblank_iff s).
    split; [intros H; now exists s | now intros (n & [= <-] & H)]. }
  assert (Hdesc : forall v, isinstance_str v = true <-> exists d, v = VStr d).
  { intros v. destruct v; simpl;
      try (split; [discriminate | now intros (n & Hn)]).
    split; [intros _; now exists s | reflexivity]. }
  assert (Hcost : forall v, isinstance_number v && number_ge0 v = true <->
                            ((exists c, v = VFloat c /\ float_nonneg c) \/
                             (exists z, int_value v = Some z /\ 0 <= z))).
  { intros v. destruct v as [| b | z | f | s | l | d].
    4: { unfold isinstance_number, number_ge0. rewrite andb_true_l, float_ge0_iff. split.
         - intros H. left. now exists f.
         - intros [(c & [= <-] & H) | (z & Hz & _)]; [exact H | discriminate]. }
    all: split;
      [ intros H; right; apply (proj1 (Hnat _)); exact H
      | intros [(c & Hc & _) | H]; [discriminate | exact (proj2 (Hnat _) H)] ]. }
  unfold validate.
  rewrite <- Hpos, <- Hname, <- Hdesc, <- Hcost, <- Hnat.
  rewrite !andb_true_iff. tauto.
Qed.
End ProductFacts.

(** ** products/__init__.py *)

Section ProductsFacts.
Context {rt : PyRuntime} {Store : Type} (dao : DAO Store).
Import ProductClass.

Ltac run := unfold try_except, bind, lift, ret, raise, call; simpl.

(** [from_dict] answers with a Product exactly when every field reads and
    converts. *)
Lemma from_dict_ok_iff (fields : PyVal) (p : Product) :
  from_dict fields = Ok p <->
  exists vi i vn n vd d vc c vq q,
    getitem fields "id" = Ok vi /\ py_int vi = Ok i /\
    getitem fields "name" = Ok vn /\ py_str vn = Ok n /\
    getitem fields "description" = Ok vd /\ py_str vd = Ok d /\
    getitem fields "cost" = Ok vc /\ py_float vc = Ok c /\
    get_default fields "qty" (VInt 0) = Ok vq /\ py_int vq = Ok q /\
    p = mkProduct (VInt i) (VStr n) (VStr d) (VFloat c) (VInt q).
Proof.
  unfold from_dict, build, rbind. split.
  - destruct (getitem fields "id") as [vi |] eqn:E1; [| destruct (_ || _); discriminate].
    destruct (py_int vi) as [i |] eqn:E2; [| destruct (_ || _); discriminate].
    destruct (getitem fields "name") as [vn |] eqn:E3; [| destruct (_ || _); discriminate].
    destruct (py_str vn) as [n |] eqn:E3'; [| destruct (_ || _); discriminate].
    destruct (getitem fields "description") as [vd |] eqn:E4;
      [| destruct (_ || _); discriminate].
    destruct (py_str vd) as [d |] eqn:E4'; [| destruct (_ || _); discriminate].
    destruct (getitem fields "cost") as [vc |] eqn:E5; [| destruct (_ || _); discriminate].
    destruct (py_float vc) as [c |] eqn:E6; [| destruct (_ || _); discriminate].
    destruct (get_default fields "qty" (VInt 0)) as [vq |] eqn:E7;
      [| destruct (_ || _); discriminate].
    destruct (py_int vq) as [q |] eqn:E8; [| destruct (_ || _); discriminate].
    intros [= <-]. exists vi, i, vn, n, vd, d, vc, c, vq, q. repeat split; assumption.
  - intros (vi & i & vn & n & vd & d & vc & c & vq & q
            & E1 & E2 & E3 & E3' & E4 & E4' & E5 & E6 & E7 & E8 & ->).
    now rewrite E1, E2, E3, E3', E4, E4', E5, E6, E7, E8.
Qed.

(** Every Product that [from_dict] builds has fields of the declared
    types. *)
Lemma from_dict_shape (fields : PyVal) (p : Product) :
  from_dict fields = Ok p ->
  exists i n d c q, p = mkProduct (VInt i) (VStr n) (VStr d) (VFloat c) (VInt q).
Proof.
  rewrite from_dict_ok_iff.
  intros (vi & i & vn & n & vd & d & vc & c & vq & q
          & _ & _ & _ & _ & _ & _ & _ & _ & _ & _ & ->).
  now exists i, n, d, c, q.
Qed.

Lemma get_default_of_getitem (fields : PyVal) (k : string) (v dflt : PyVal) :
  getitem fields k = Ok v -> exists v', get_default fields k dflt = Ok v'.
Proof. intros H. exists v. now apply getitem_get_default. Qed.

Lemma get_default_dict (fields : PyVal) (k : string) (v dflt : PyVal) :
  getitem fields k = Ok v -> forall k', exists v', get_default fields k' dflt = Ok v'.
Proof.
  destruct fields; simpl; try discriminate. intros _ k'.
  destruct (dict_lookup d k'); eauto.
Qed.

(** [from_dict] raises exactly on malformed fields. *)
Lemma from_dict_raises_iff (fields : PyVal) :
  (exists e, from_dict fields = Raise e) <-> malformed fields.
Proof.
  split.
  - intros (e & He). unfold malformed.
    destruct (getitem fields "id") as [vi | e1] eqn:E1;
      [| left; exists "id", e1; simpl; tauto].
    destruct (py_int vi) as [i | e2] eqn:E2; [| right; left; eauto].
    destruct (getitem fields "name") as [vn | e3] eqn:E3;
      [| left; exists "name", e3; simpl; tauto].
    destruct (py_str vn) as [n | e3'] eqn:E3';
      [| do 4 right; exists "name", vn, e3'; simpl; tauto].
    destruct (getitem fields "description") as [vd | e4] eqn:E4;
      [| left; exists "description", e4; simpl; tauto].
    destruct (py_str vd) as [d | e4'] eqn:E4';
      [| do 4 right; exists "description", vd, e4'; simpl; tauto].
    destruct (getitem fields "cost") as [vc | e5] eqn:E5;
      [| left; exists "cost", e5; simpl; tauto].
    destruct (py_float vc) as [c | e6] eqn:E6; [| right; right; left; eauto].
    destruct (get_default_dict _ _ _ (VInt 0) E1 "qty") as (vq & E7).
    destruct (py_int vq) as [q | e8] eqn:E8; [| right; right; right; left; eauto].
    exfalso.
    assert (Hok : from_dict fields
                  = Ok (mkProduct (VInt i) (VStr n) (VStr d) (VFloat c) (VInt q))).
    { apply from_dict_ok_iff. exists vi, i, vn, n, vd, d, vc, c, vq, q.
      repeat split; assumption. }
    congruence.
  - intros Hbad.
    destruct (from_dict fields) as [p | e] eqn:Hf; [| eauto].
    exfalso. apply from_dict_ok_iff in Hf.
    destruct Hf as (vi & i & vn & n & vd & d & vc & c & vq & q
                    & E1 & E2 & E3 & E3' & E4 & E4' & E5 & E6 & E7 & E8 & _).
    destruct Hbad as [(k & e & Hk & Hg) | [(v & e & Hg & Hc) | [(v & e & Hg & Hc)
                     | [(v & e & Hg & Hc) | (k & v & e & Hk & Hg & Hc)]]]].
    + simpl in Hk. destruct Hk as [<- | [<- | [<- | [<- | []]]]]; congruence.
    + congruence.
    + congruence.
    + congruence.
    + simpl in Hk. destruct Hk as [<- | [<- | []]]; congruence.
Qed.

(** *** get_product *)

(** [get_product] makes one call to the DAO and never raises. *)
Lemma get_product_eq (product_id : PyVal) (w : World Store) :
  get_product dao product_id w =
  (Ok (resolution (fst (dao_get_product dao product_id (store w)))),
   mkWorld (snd (dao_get_product dao product_id (store w)))
           (calls w ++ [CGetProduct product_id])).
Proof.
  unfold get_product, resolution. run.
  destruct (dao_get_product dao product_id (store w)) as [[pd | e] s']; simpl;
    [| reflexivity].
  destruct (truthy pd); [| reflexivity].
  run. destruct (from_dict pd); reflexivity.
Qed.

(** *** update_qty *)

Lemma update_qty_eq (product_id qty : PyVal) (w : World Store) :
  update_qty dao product_id qty w =
  if negb (isinstance_int qty) || int_lt0 qty then (Ok false, w)
  else
    match get_product dao product_id w with
    | (Ok (Some _), w1) =>
        (Ok (is_ok (fst (dao_update_qty dao product_id qty (store w1)))),
         mkWorld (snd (dao_update_qty dao product_id qty (store w1)))
                 (calls w1 ++ [CUpdateQty product_id qty]))
    | (_, w1) => (Ok false, w1)
    end.
Proof.
  unfold update_qty. run.
  destruct (negb (isinstance_int qty) || int_lt0 qty); [reflexivity |].
  simpl. rewrite get_product_eq.
  destruct (resolution _); simpl; [| reflexivity].
  destruct (dao_update_qty dao product_id qty _) as [[v | e] s2]; reflexivity.
Qed.

Lemma update_qty_total (product_id qty : PyVal) (w : World Store) :
  exists ok w', update_qty dao product_id qty w = (Ok ok, w').
Proof.
  rewrite update_qty_eq.
  destruct (negb (isinstance_int qty) || int_lt0 qty); [eauto |].
  rewrite get_product_eq. destruct (resolution _); eauto.
Qed.
Lemma nonneg_int (qty : PyVal) :
  negb (isinstance_int qty) || int_lt0 qty = false ->
  exists z, int_value qty = Some z /\ 0 <= z.
Proof.
  unfold isinstance_int, int_lt0.
  destruct (int_value qty) as [z |]; simpl; [| discriminate].
  intros H. exists z. split; [reflexivity |]. apply Z.ltb_ge. exact H.
Qed.

(** C6: [update_qty] always answers with a boolean, and answers true only
    when the quantity is an integer that is not negative and
    [get_product] finds the product; a quantity that is no integer or is
    negative gives false, and so does a product that [get_product] does not
    find; [update_qty(5, -1)] is false whatever the store holds. *)
Theorem update_qty_true_only_if (product_id qty : PyVal) (w : World Store) :
  (exists ok w',
      update_qty dao product_id qty w = (Ok ok, w') /\
      (ok = true ->
       (exists z, int_value qty = Some z /\ 0 <= z) /\
       (exists p w1, get_product dao product_id w = (Ok (Some p), w1)))) /\
  (negb (isinstance_int qty) || int_lt0 qty = true ->
   update_qty dao product_id qty w = (Ok false, w)) /\
  (forall w1, get_product dao product_id w = (Ok None, w1) ->
              fst (update_qty dao product_id qty w) = Ok false) /\
  update_qty dao (VInt 5) (VInt (-1)) w = (Ok false, w).
Proof.
  split; [| split; [| split; [| reflexivity]]].
  - rewrite update_qty_eq.
    destruct (negb (isinstance_int qty) || int_lt0 qty) eqn:Hq.
    + exists false, w. split; [reflexivity | discriminate].
    + destruct (get_product dao product_id w) as [[[p |] | e] w1] eqn:Hg.
      * eexists _, _. split; [reflexivity |]. intros _.
        split; [now apply nonneg_int | now exists p, w1].
      * exists false, w1. split; [reflexivity | discriminate].
      * exists false, w1. split; [reflexivity | discriminate].
  - intros Hq. rewrite update_qty_eq, Hq. reflexivity.
  - intros w1 Hg. rewrite update_qty_eq, Hg.
    destruct (negb (isinstance_int qty) || int_lt0 qty); reflexivity.
Qed.

(** C10, amended: when [update_qty] answers false, either the quantity
    was refused and no call at all was made to the DAO, or the product
    was not found and the only call made is the read of [get_product],
    or [dao.update_qty] was called and raised, and then the store is the
    one that call has left. *)
Theorem update_qty_false_cases (product_id qty : PyVal) (w w' : World Store) :
  update_qty dao product_id qty w = (Ok false, w') ->
  (negb (isinstance_int qty) || int_lt0 qty = true /\ w' = w) \/
  (get_product dao product_id w = (Ok None, w') /\
   calls w' = calls w ++ [CGetProduct product_id]) \/
  (exists p w1 e s2,
      get_product dao product_id w = (Ok (Some p), w1) /\
      dao_update_qty dao product_id qty (store w1) = (Raise e, s2) /\
      w' = mkWorld s2 (calls w ++ [CGetProduct product_id; CUpdateQty product_id qty])).
Proof.
  intros Hout. rewrite update_qty_eq in Hout.
  destruct (negb (isinstance_int qty) || int_lt0 qty) eqn:Hq.
  - injection Hout as <-. now left.
  - right. rewrite get_product_eq in *.
    destruct (resolution _) as [p |] eqn:Hr.
    + right.
      destruct (dao_update_qty dao product_id qty _) as [[v | e] s2] eqn:Hu;
        simpl in Hout; [discriminate |].
      injection Hout as <-. exists p. eexists _, e, s2.
      split; [reflexivity |]. simpl. split; [exact Hu |].
      now rewrite <- app_assoc.
    + left. injection Hout as <-. split; reflexivity.
Qed.

(** *** add_product *)

Lemma add_product_eq (fields : PyVal) (w : World Store) :
  add_product dao fields w =
  match from_dict fields with
  | Ok p =>
      if validate p
      then (Ok (is_ok (fst (dao_add_product dao (to_dict p) (store w)))),
            mkWorld (snd (dao_add_product dao (to_dict p) (store w)))
                    (calls w ++ [CAddProduct (to_dict p)]))
      else (Ok false, w)
  | Raise _ => (Ok false, w)
  end.
Proof.
  unfold add_product. run.
  destruct (from_dict fields) as [p | e]; [| reflexivity].
  destruct (validate p); simpl; [| reflexivity].
  destruct (dao_add_product dao (to_dict p) (store w)) as [[v | e] s']; reflexivity.
Qed.

Lemma calls_grow (l : list Call) (c : Call) : l <> l ++ [c].
Proof.
  intros H. apply (f_equal (@List.length Call)) in H.
  rewrite length_app in H. simpl in H. lia.
Qed.

(** C9: [add_product] calls [dao.add_product] if and only if the fields
    parse into a Product and that Product validates, and then with the
    serialised Product; fields that do not parse (a missing key, a value
    of the wrong type) make it answer false, and so does a Product that
    does not validate, in both cases without a call to the DAO. *)
Theorem add_product_persists_iff (fields : PyVal) (w : World Store) :
  let out := add_product dao fields w in
  ((exists p, from_dict fields = Ok p /\ validate p = true) <->
   (exists d, calls (snd out) = calls w ++ [CAddProduct d])) /\
  (forall p, from_dict fields = Ok p -> validate p = true ->
     calls (snd out) = calls w ++ [CAddProduct (to_dict p)] /\
     store (snd out) = snd (dao_add_product dao (to_dict p) (store w)) /\
     fst out = Ok (is_ok (fst (dao_add_product dao (to_dict p) (store w))))) /\
  ((forall p, from_dict fields = Ok p -> validate p = false) ->
     out = (Ok false, w)) /\
  (malformed fields -> out = (Ok false, w)).
Proof.
  cbv zeta. rewrite add_product_eq.
  destruct (from_dict fields) as [p | e] eqn:Hf.
  - destruct (validate p) eqn:Hv; simpl.
    + split; [split; eauto |].
      split; [intros p' [= <-] _; repeat split |].
      split; [intros H; specialize (H p eq_refl); congruence |].
      intros Hbad. apply from_dict_raises_iff in Hbad.
      destruct Hbad as (e & He). congruence.
    + split.
      { split.
        - intros (p' & [= <-] & Hv'). congruence.
        - intros (d & Hd). exfalso. exact (calls_grow _ _ Hd). }
      split; [intros p' [= <-] Hv'; congruence |].
      split; reflexivity.
  - simpl. split.
    { split.
      - intros (p' & Hp' & _). discriminate.
      - intros (d & Hd). exfalso. exact (calls_grow _ _ Hd). }
    split; [intros p' Hp'; discriminate |].
    split; reflexivity.
Qed.

(** *** list_products *)

Lemma list_products_eq (w : World Store) :
  list_products dao w =
  (Ok match fst (dao_list_products dao (store w)) with
      | Ok products_data =>
          match py_iter products_data with
          | Ok rows =>
              match parse_rows rows with
              | Ok ps => ps
              | Raise _ => []
              end
          | Raise _ => []
          end
      | Raise _ => []
      end,
   mkWorld (snd (dao_list_products dao (store w))) (calls w ++ [CListProducts])).
Proof.
  unfold list_products. run.
  destruct (dao_list_products dao (store w)) as [[pd | e] s']; simpl; [| reflexivity].
  destruct (py_iter pd) as [rows | e]; simpl; [| reflexivity].
  destruct (parse_rows rows); reflexivity.
Qed.

(** One row that is kept and does not parse fails the whole
    comprehension. *)
Lemma parse_rows_fails (rows : list PyVal) (row : PyVal) (e : exn) :
  In row rows -> truthy row = true -> from_dict row = Raise e ->
  exists e', parse_rows rows = Raise e'.
Proof.
  intros Hin Ht Hf.
  induction rows as [| r rows IH]; [contradiction |].
  simpl. destruct Hin as [-> | Hin].
  - rewrite Ht, Hf. simpl. eauto.
  - destruct (IH Hin) as (e' & He'). rewrite He'.
    destruct (truthy r); [| eauto].
    destruct (from_dict r); simpl; eauto.
Qed.

(** When every kept row parses, the comprehension has them all, in
    order. *)
Lemma parse_rows_all (rows : list PyVal) (ps : list Product) :
  Forall2 (fun row p => from_dict row = Ok p) (filter truthy rows) ps ->
  parse_rows rows = Ok ps.
Proof.
  revert ps. induction rows as [| r rows IH]; intros ps H; simpl in *.
  - now inversion H.
  - destruct (truthy r); [| now apply IH].
    inversion H as [| ? p ? ps' Hp Hrest]; subst.
    rewrite Hp, (IH _ Hrest). reflexivity.
Qed.

(** C8: [list_products] never raises; it answers the empty list as soon
    as the fetch raises, or what was fetched cannot be iterated, or one
    of the rows it keeps does not parse, whatever the other rows are. *)
Theorem list_products_all_or_nothing (w : World Store) :
  exists ps,
    list_products dao w =
      (Ok ps, mkWorld (snd (dao_list_products dao (store w)))
                      (calls w ++ [CListProducts])) /\
    (forall e, fst (dao_list_products dao (store w)) = Raise e -> ps = []) /\
    (forall v e, fst (dao_list_products dao (store w)) = Ok v ->
                 py_iter v = Raise e -> ps = []) /\
    (forall v rows row e,
        fst (dao_list_products dao (store w)) = Ok v ->
        py_iter v = Ok rows ->
        In row rows -> truthy row = true -> from_dict row = Raise e ->
        ps = []).
Proof.
  eexists. split; [apply list_products_eq |].
  split; [| split].
  - intros e ->. reflexivity.
  - intros v e -> ->. reflexivity.
  - intros v rows row e -> -> Hin Ht Hf.
    destruct (parse_rows_fails _ _ _ Hin Ht Hf) as (e' & ->). reflexivity.
Qed.

(** When nothing fails, [list_products] answers every kept row, parsed. *)
Lemma list_products_success (w : World Store) (v : PyVal) (rows : list PyVal)
      (ps : list Product) :
  fst (dao_list_products dao (store w)) = Ok v ->
  py_iter v = Ok rows ->
  Forall2 (fun row p => from_dict row = Ok p) (filter truthy rows) ps ->
  fst (list_products dao w) = Ok ps.
Proof.
  intros Hv Hr Hp. rewrite list_products_eq. simpl.
  now rewrite Hv, Hr, (parse_rows_all _ _ Hp).
Qed.
End ProductsFacts.

(** *** batch_update_qty *)

Section BatchFacts.
Context {rt : PyRuntime} {Store : Type} (dao : DAO Store).

Lemma dict_set_fresh (d : list (PyVal * bool)) (k : PyVal) (v : bool) :
  (forall k', In k' (map fst d) -> py_eqb k' k = false) ->
  dict_set d k v = d ++ [(k, v)].
Proof.
  induction d as [| [k0 v0] d IH]; intros Hfresh; simpl; [reflexivity |].
  rewrite (Hfresh k0 (or_introl eq_refl)).
  rewrite IH; [reflexivity |].
  intros k' Hk'. apply Hfresh. now right.
Qed.

(** The loop raises nothing, whatever the keys. *)
Lemma batch_loop_total (items : list (PyVal * PyVal)) :
  forall (acc : list (PyVal * bool)) (w : World Store),
  exists results w', batch_loop dao items acc w = (Ok results, w').
Proof.
  induction items as [| [pid qty] rest IH]; intros acc w; simpl.
  - now exists acc, w.
  - unfold bind.
    destruct (update_qty_total dao pid qty w) as (ok & w1 & ->).
    apply IH.
Qed.

(** The loop runs every entry in turn and collects one result for each. *)
Lemma batch_loop_run (items : list (PyVal * PyVal)) :
  forall (acc : list (PyVal * bool)) (w : World Store),
    distinct_keys items ->
    (forall k k', In k (map fst acc) -> In k' (map fst items) -> py_eqb k k' = false) ->
    exists results w',
      batch_loop dao items acc w = (Ok (acc ++ results), w') /\
      batch_run dao items w results w'.
Proof.
  induction items as [| [pid qty] rest IH]; intros acc w Hd Hacc.
  - exists [], w. simpl. rewrite app_nil_r. split; [reflexivity | constructor].
  - destruct Hd as [Hpid Hrest].
    destruct (update_qty_total dao pid qty w) as (ok & w1 & Hu).
    destruct (IH (acc ++ [(pid, ok)]) w1 Hrest) as (results & w' & Hloop & Hrun).
    { intros k k' Hk Hk'. rewrite map_app in Hk. apply in_app_or in Hk.
      destruct Hk as [Hk | [<- | []]].
      - apply Hacc; [exact Hk | now right].
      - now apply Hpid. }
    exists ((pid, ok) :: results), w'. split.
    + simpl. unfold bind. rewrite Hu.
      rewrite dict_set_fresh by (intros k' Hk'; apply Hacc; [exact Hk' | now left]).
      rewrite Hloop. now rewrite <- app_assoc.
    + econstructor; eassumption.
Qed.

(** C3: [batch_update_qty] never raises and answers one result per
    entry, the entries being run one after the other, each from the
    world the one before it left, whatever that one returned.  For
    [{1: 10, 2: -1}], when [get_product] finds product 1 and the DAO
    takes the write, the answer is [{1: true, 2: false}], the write of
    product 1 has been made and stays, and entry 2 has called nothing. *)
Theorem batch_update_qty_independent (updates : list (PyVal * PyVal)) (w : World Store) :
  (distinct_keys updates ->
   exists results w',
     batch_update_qty dao updates w = (Ok results, w') /\
     batch_run dao updates w results w') /\
  (forall p w1 v s2,
      get_product dao (VInt 1) w = (Ok (Some p), w1) ->
      dao_update_qty dao (VInt 1) (VInt 10) (store w1) = (Ok v, s2) ->
      batch_update_qty dao [(VInt 1, VInt 10); (VInt 2, VInt (-1))] w =
        (Ok [(VInt 1, true); (VInt 2, false)],
         mkWorld s2 (calls w ++ [CGetProduct (VInt 1); CUpdateQty (VInt 1) (VInt 10)]))).
Proof.
  split.
  - intros Hd.
    destruct (batch_loop_run updates [] w Hd) as (results & w' & Hloop & Hrun).
    + intros k k' [].
    + exists results, w'. split; [exact Hloop | exact Hrun].
  - intros p w1 v s2 Hg Hu.
    unfold batch_update_qty. simpl. unfold bind.
    rewrite update_qty_eq. simpl. rewrite Hg, Hu. simpl.
    pose proof (get_product_eq dao (VInt 1) w) as Hw1.
    rewrite Hg in Hw1. injection Hw1 as _ ->. simpl.
    now rewrite <- app_assoc.
Qed.
End BatchFacts.

(** ** cart/__init__.py *)

Section CartFacts.
Context {rt : PyRuntime} {Store : Type} (dao : DAO Store).

Ltac run := unfold try_except, bind, lift, ret, raise, call; simpl.

(** *** The first loop: reading the rows *)

Lemma set_add_all_raises (items ids ids' : list PyVal) (e : exn) :
  set_add_all ids items = (ids', Raise e) -> e = TypeError.
Proof.
  revert ids. induction items as [| x items IH]; intros ids; simpl.
  - discriminate.
  - destruct (hashable x); [apply IH | now intros [= _ <-]].
Qed.

Lemma set_update_raises (ids ids' : list PyVal) (contents : PyVal) (e : exn) :
  set_update ids contents = (ids', Raise e) -> e = TypeError.
Proof.
  unfold set_update.
  destruct (py_iter contents) as [items | e0] eqn:Hi.
  - apply set_add_all_raises.
  - intros [= _ <-]. destruct contents; simpl in Hi; congruence.
Qed.

Lemma getitem_caught (v : PyVal) (k : string) (e : exn) :
  getitem v k = Raise e -> caught e = true.
Proof.
  destruct v; simpl; try (intros [= <-]; reflexivity).
  destruct (dict_lookup d k); [discriminate | now intros [= <-]].
Qed.

(** One turn of the first loop, by what reading the row gives: contents
    that decode go into the set, and what [set.update] raises is caught;
    an error of the reading is caught when the [except] clause names it,
    and leaves [get_cart] otherwise. *)
Lemma collect_row_eq (ids : list PyVal) (detail : PyVal) :
  collect_row ids detail =
  match (raw <- getitem detail "contents";; json_loads raw)%res with
  | Ok contents => Ok (fst (set_update ids contents))
  | Raise e => if caught e then Ok ids else Raise e
  end.
Proof.
  unfold collect_row, read_row.
  destruct (rbind (getitem detail "contents") (fun raw => json_loads raw))
    as [contents | e]; [| reflexivity].
  destruct (set_update ids contents) as [ids' [u | e]] eqn:Hu; [reflexivity |].
  now rewrite (set_update_raises _ _ _ _ Hu).
Qed.

(** A turn that does not raise leaves the set as the body of the [try]
    has left it. *)
Lemma collect_row_ok (ids ids' : list PyVal) (detail : PyVal) :
  collect_row ids detail = Ok ids' -> ids' = fst (read_row ids detail).
Proof.
  unfold collect_row.
  destruct (read_row ids detail) as [ids1 [u | e]]; simpl.
  - now intros [= <-].
  - destruct (_ || _); [now intros [= <-] | discriminate].
Qed.

Lemma collect_ids_cons (detail : PyVal) (rest ids ids' : list PyVal) :
  collect_ids (detail :: rest) ids = Ok ids' ->
  collect_ids rest (fst (read_row ids detail)) = Ok ids'.
Proof.
  simpl. destruct (collect_row ids detail) as [ids1 | e] eqn:Hr; simpl;
    [| discriminate].
  now rewrite (collect_row_ok _ _ _ Hr).
Qed.

(** What the first loop raises is what [json.loads] has raised on the
    contents of a row, and is an error that the [except] clause does not
    name. *)
Lemma collect_ids_raises (details : list PyVal) :
  forall ids e,
    collect_ids details ids = Raise e ->
    exists detail raw,
      In detail details /\ getitem detail "contents" = Ok raw /\
      json_loads raw = Raise e /\ caught e = false.
Proof.
  induction details as [| detail rest IH]; intros ids e; simpl; [discriminate |].
  rewrite collect_row_eq.
  destruct (getitem detail "contents") as [raw | e0] eqn:Hg; simpl.
  - destruct (json_loads raw) as [contents | e1] eqn:Hj; simpl.
    + intros H. destruct (IH _ _ H) as (d & r & Hin & Hrest).
      exists d, r. split; [now right | exact Hrest].
    + destruct (caught e1) eqn:Hc; simpl.
      * intros H. destruct (IH _ _ H) as (d & r & Hin & Hrest).
        exists d, r. split; [now right | exact Hrest].
      * intros [= <-]. exists detail, raw. repeat split; try assumption. now left.
  - rewrite (getitem_caught _ _ _ Hg). simpl.
    intros H. destruct (IH _ _ H) as (d & r & Hin & Hrest).
    exists d, r. split; [now right | exact Hrest].
Qed.

(** A row on whose contents [json.loads] raises an error that the
    [except] clause does not name makes the first loop raise. *)
Lemma collect_ids_uncaught (details : list PyVal) :
  forall ids detail raw e,
    In detail details -> getitem detail "contents" = Ok raw ->
    json_loads raw = Raise e -> caught e = false ->
    exists e', collect_ids details ids = Raise e'.
Proof.
  induction details as [| d rest IH]; intros ids detail raw e; simpl;
    [contradiction |].
  intros [-> | Hin] Hg Hj Hc.
  - rewrite collect_row_eq, Hg. simpl. rewrite Hj, Hc. simpl. eauto.
  - destruct (collect_row ids d) as [ids1 | e1]; simpl; [| eauto].
    exact (IH _ _ _ _ Hin Hg Hj Hc).
Qed.

(** A row whose contents decode to a list of hashable ids adds them. *)
Lemma collect_row_ids (ids : list PyVal) (detail raw : PyVal) (items : list PyVal) :
  getitem detail "contents" = Ok raw ->
  json_loads raw = Ok (VList items) ->
  collect_row ids detail = Ok (fst (set_add_all ids items)).
Proof.
  intros Hg Hj. rewrite collect_row_eq, Hg. cbn [rbind]. rewrite Hj. reflexivity.
Qed.

(** *** The set of ids is the union of the rows *)

Lemma set_mem_false (x : PyVal) (s : list PyVal) :
  set_mem x s = false -> Forall (fun y => set_eqb x y = false) s.
Proof.
  unfold set_mem. induction s as [| y s IH]; simpl; [constructor |].
  intros H. apply orb_false_iff in H. destruct H as [Hy Hs].
  constructor; [exact Hy | exact (IH Hs)].
Qed.

Lemma no_equal_members_snoc (s : list PyVal) (x : PyVal) :
  no_equal_members s -> Forall (fun y => set_eqb x y = false) s ->
  no_equal_members (s ++ [x]).
Proof.
  unfold no_equal_members.
  induction s as [| a s IH]; simpl; intros Hs Hx.
  - constructor; constructor.
  - inversion Hs as [| ? ? Ha Hrest]; subst.
    inversion Hx as [| ? ? Hxa Hxs]; subst.
    constructor; [| exact (IH Hrest Hxs)].
    apply Forall_app. split; [exact Ha | constructor; [exact Hxa | constructor]].
Qed.

Lemma set_add_distinct (x : PyVal) (s : list PyVal) :
  no_equal_members s -> no_equal_members (set_add x s).
Proof.
  intros Hs. unfold set_add.
  destruct (set_mem x s) eqn:Hm; [exact Hs |].
  apply no_equal_members_snoc; [exact Hs | exact (set_mem_false _ _ Hm)].
Qed.

Lemma set_add_incl (x : PyVal) (s : list PyVal) : incl s (set_add x s).
Proof.
  unfold set_add. destruct (set_mem x s); [apply incl_refl | apply incl_appl, incl_refl].
Qed.

Lemma set_add_only (x y : PyVal) (s : list PyVal) :
  In y (set_add x s) -> In y s \/ y = x.
Proof.
  unfold set_add. destruct (set_mem x s); [now left |].
  intros H. apply in_app_or in H. destruct H as [H | [<- | []]]; auto.
Qed.

Lemma represented_incl (x : PyVal) (s s' : list PyVal) :
  incl s s' -> represented x s -> represented x s'.
Proof.
  intros Hincl [Hin | Hmem]; [left; exact (Hincl _ Hin) |].
  right. unfold set_mem in *. apply existsb_exists in Hmem.
  destruct Hmem as (y & Hy & Heq). apply existsb_exists. exists y.
  split; [exact (Hincl _ Hy) | exact Heq].
Qed.

Lemma set_add_represented (x : PyVal) (s : list PyVal) : represented x (set_add x s).
Proof.
  unfold represented, set_add. destruct (set_mem x s) eqn:Hm; [now right |].
  left. apply in_or_app. right. now left.
Qed.

Lemma set_add_all_facts (items : list PyVal) :
  forall ids,
    incl ids (fst (set_add_all ids items)) /\
    (no_equal_members ids -> no_equal_members (fst (set_add_all ids items))) /\
    (forall y, In y (fst (set_add_all ids items)) -> In y ids \/ In y items) /\
    (forallb hashable items = true ->
     forall x, In x items -> represented x (fst (set_add_all ids items))).
Proof.
  induction items as [| x items IH]; intros ids; simpl.
  - repeat split; auto using incl_refl. intros _ x [].
  - destruct (hashable x) eqn:Hx; simpl.
    + destruct (IH (set_add x ids)) as (Hincl & Hdist & Honly & Hcov).
      repeat split.
      * exact (incl_tran (set_add_incl x ids) Hincl).
      * intros Hd. apply Hdist, set_add_distinct, Hd.
      * intros y Hy. destruct (Honly y Hy) as [H | H]; [| auto].
        destruct (set_add_only _ _ _ H) as [H' | ->]; auto.
      * intros Hall z [<- | Hz]; [| exact (Hcov Hall z Hz)].
        exact (represented_incl _ _ _ Hincl (set_add_represented x ids)).
    + repeat split; auto using incl_refl. discriminate.
Qed.

Lemma read_row_facts (ids : list PyVal) (detail : PyVal) :
  incl ids (fst (read_row ids detail)) /\
  (no_equal_members ids -> no_equal_members (fst (read_row ids detail))) /\
  (forall y, In y (fst (read_row ids detail)) ->
     In y ids \/
     exists raw contents items,
       getitem detail "contents" = Ok raw /\ json_loads raw = Ok contents /\
       py_iter contents = Ok items /\ In y items).
Proof.
  unfold read_row, rbind.
  destruct (getitem detail "contents") as [raw | e]; simpl;
    [| repeat split; auto using incl_refl].
  destruct (json_loads raw) as [contents | e] eqn:Hj; simpl;
    [| repeat split; auto using incl_refl].
  unfold set_update.
  destruct (py_iter contents) as [items | e] eqn:Hi; simpl;
    [| repeat split; auto using incl_refl].
  destruct (set_add_all_facts items ids) as (Hincl & Hdist & Honly & _).
  repeat split; [exact Hincl | exact Hdist |].
  intros y Hy. destruct (Honly y Hy) as [H | H]; [now left |].
  right. now exists raw, contents, items.
Qed.

(** The set that the first loop leaves has no two equal members. *)
Lemma collect_ids_distinct (details : list PyVal) :
  forall ids ids',
    collect_ids details ids = Ok ids' -> no_equal_members ids -> no_equal_members ids'.
Proof.
  induction details as [| detail rest IH]; intros ids ids'; simpl.
  - now intros [= <-].
  - intros H Hd. pose proof (collect_ids_cons detail rest ids ids' H) as H'.
    clear H. rename H' into H.
    apply (IH _ _ H). now apply read_row_facts.
Qed.

Lemma collect_ids_incl (details : list PyVal) :
  forall ids ids', collect_ids details ids = Ok ids' -> incl ids ids'.
Proof.
  induction details as [| detail rest IH]; intros ids ids'; simpl.
  - intros [= <-]. apply incl_refl.
  - intros H. pose proof (collect_ids_cons detail rest ids ids' H) as H'.
    clear H. rename H' into H.
    exact (incl_tran (proj1 (read_row_facts ids detail)) (IH _ _ H)).
Qed.

(** Every id of every row that decodes to a list of hashable values is in
    the set. *)
Lemma collect_ids_covers (details : list PyVal) :
  forall ids ids' detail raw items,
    collect_ids details ids = Ok ids' ->
    In detail details ->
    getitem detail "contents" = Ok raw ->
    json_loads raw = Ok (VList items) ->
    forallb hashable items = true ->
    forall x, In x items -> represented x ids'.
Proof.
  induction details as [| d rest IH]; intros ids ids' detail raw items; simpl;
    [contradiction |].
  intros H0 [-> | Hin] Hg Hj Hall x Hx;
    pose proof (collect_ids_cons _ rest ids ids' H0) as H; clear H0.
  - apply (represented_incl _ _ _ (collect_ids_incl _ _ _ H)).
    unfold read_row. rewrite Hg. simpl. rewrite Hj. simpl.
    now apply set_add_all_facts.
  - exact (IH _ _ _ _ _ H Hin Hg Hj Hall x Hx).
Qed.

(** Every member of the set was read from the contents of a row. *)
Lemma collect_ids_only (details : list PyVal) :
  forall ids ids' y,
    collect_ids details ids = Ok ids' -> In y ids' ->
    In y ids \/
    exists detail raw contents items,
      In detail details /\ getitem detail "contents" = Ok raw /\
      json_loads raw = Ok contents /\ py_iter contents = Ok items /\ In y items.
Proof.
  induction details as [| d rest IH]; intros ids ids' y; simpl.
  - intros [= <-]. now left.
  - intros H0 Hy. pose proof (collect_ids_cons d rest ids ids' H0) as H. clear H0.
    destruct (IH _ _ _ H Hy) as [Hin | (detail & raw & c & items & Hd & Hrest)].
    + destruct (proj2 (proj2 (read_row_facts ids d)) y Hin)
        as [H0 | (raw & c & items & Hrest)]; [now left |].
      right. exists d, raw, c, items. split; [now left | exact Hrest].
    + right. exists detail, raw, c, items. split; [now right | exact Hrest].
Qed.

(** *** The second loop: resolving the ids *)

Lemma resolve_loop_lookups (product_ids : list PyVal) :
  forall (products : list Product) (w : World Store),
  exists os w',
    resolve_loop dao product_ids products w = (Ok (products ++ present os), w') /\
    lookups dao product_ids w os w'.
Proof.
  induction product_ids as [| pid rest IH]; intros products w.
  - exists [], w. simpl. rewrite app_nil_r. split; [reflexivity | constructor].
  - simpl. unfold bind.
    pose proof (get_product_eq dao pid w) as Hg.
    destruct (resolution _) as [p |] eqn:Hr.
    + destruct (IH (products ++ [p]) (mkWorld (snd (dao_get_product dao pid (store w)))
                                              (calls w ++ [CGetProduct pid])))
        as (os & w' & Hloop & Hl).
      exists (Some p :: os), w'. rewrite Hg. split.
      * rewrite Hloop. simpl. now rewrite <- app_assoc.
      * econstructor; eassumption.
    + destruct (IH products (mkWorld (snd (dao_get_product dao pid (store w)))
                                     (calls w ++ [CGetProduct pid])))
        as (os & w' & Hloop & Hl).
      exists (None :: os), w'. rewrite Hg. split.
      * rewrite Hloop. reflexivity.
      * econstructor; eassumption.
Qed.

(** Each id is looked up once, by one call to the DAO. *)
Lemma lookups_calls (ids : list PyVal) (w w' : World Store) (os : list (option Product)) :
  lookups dao ids w os w' -> calls w' = calls w ++ map CGetProduct ids.
Proof.
  induction 1 as [w | pid rest w o w1 os w' Hg _ IH]; simpl.
  - now rewrite app_nil_r.
  - rewrite get_product_eq in Hg. injection Hg as _ <-.
    rewrite IH. simpl. now rewrite <- app_assoc.
Qed.


(** In a store where resolution is settled, the lookups give what it
    says. *)
Lemma lookups_settled (Inv : Store -> Prop) (res : PyVal -> option Product)
      (ids : list PyVal) (w w' : World Store) (os : list (option Product)) :
  lookups dao ids w os w' ->
  Inv (store w) ->
  (forall pid, In pid ids -> resolves_to dao Inv pid (res pid)) ->
  os = map res ids /\ Inv (store w').
Proof.
  induction 1 as [w | pid rest w o w1 os w' Hg _ IH]; intros Hinv Hres; simpl.
  - split; [reflexivity | exact Hinv].
  - destruct (Hres pid (or_introl eq_refl) w Hinv) as (w1' & Hg' & Hinv').
    rewrite Hg in Hg'. injection Hg' as -> <-.
    destruct IH as [-> Hfin]; [exact Hinv' | | split; [reflexivity | exact Hfin]].
    intros pid' Hin. apply Hres. now right.
Qed.

(** *** get_cart *)

Lemma get_cart_eq (username : PyVal) (w : World Store) :
  get_cart dao username w =
  let w1 := mkWorld (snd (dao_get_cart dao username (store w)))
                    (calls w ++ [CGetCart username]) in
  match fst (dao_get_cart dao username (store w)) with
  | Raise e => (Raise e, w1)
  | Ok cart_details =>
      if negb (truthy cart_details) then (Ok [], w1)
      else match py_iter cart_details with
           | Raise e => (Raise e, w1)
           | Ok details =>
               match collect_ids details [] with
               | Raise e => (Raise e, w1)
               | Ok product_ids => resolve_loop dao (set_iter product_ids) [] w1
               end
           end
  end.
Proof.
  unfold get_cart. run.
  destruct (dao_get_cart dao username (store w)) as [[cd | e] s1]; simpl; [| reflexivity].
  destruct (truthy cd); simpl; [| reflexivity].
  destruct (py_iter cd) as [details | e]; simpl; [| reflexivity].
  destruct (collect_ids details []); reflexivity.
Qed.


Lemma set_iter_nil : set_iter [] = [].
Proof. apply Permutation_nil. apply Permutation_sym, set_iter_perm. Qed.

(** In a store where resolution is settled, [get_cart] answers what the
    ids of the rows resolve to, the absent ones left out, and calls
    [get_product] once for each id. *)
Lemma get_cart_settled (Inv : Store -> Prop) (res : PyVal -> option Product)
      (username cart_details : PyVal) (details ids : list PyVal)
      (w : World Store) (s1 : Store) :
  dao_get_cart dao username (store w) = (Ok cart_details, s1) ->
  truthy cart_details = true ->
  py_iter cart_details = Ok details ->
  collect_ids details [] = Ok ids ->
  Inv s1 ->
  (forall pid, In pid ids -> resolves_to dao Inv pid (res pid)) ->
  exists w',
    get_cart dao username w = (Ok (present (map res (set_iter ids))), w') /\
    calls w' = calls w ++ CGetCart username :: map CGetProduct (set_iter ids) /\
    Inv (store w').
Proof.
  intros Hdao Ht Hiter Hids Hinv Hres.
  rewrite get_cart_eq, Hdao. simpl. rewrite Ht, Hiter, Hids. simpl.
  destruct (resolve_loop_lookups (set_iter ids) []
              (mkWorld s1 (calls w ++ [CGetCart username])))
    as (os & w' & Hloop & Hl).
  destruct (lookups_settled Inv res _ _ _ _ Hl Hinv) as [-> Hfin].
  { intros pid Hin. apply Hres.
    exact (Permutation_in _ (set_iter_perm ids) Hin). }
  exists w'. split; [exact Hloop |]. split; [| exact Hfin].
  rewrite (lookups_calls _ _ _ _ Hl). simpl. now rewrite <- app_assoc.
Qed.

(** C1: when the DAO holds two rows for the user whose contents decode
    to [1, 2] and [2, 3], and ids 1, 2 and 3 resolve to products, in a
    store where that is settled, [get_cart] answers these three products,
    each once, in the order in which the set is iterated, and looks each
    of the three ids up once. *)
Theorem get_cart_unions_rows
    (Inv : Store -> Prop) (username r1 r2 c1 c2 : PyVal) (p1 p2 p3 : Product)
    (w : World Store) (s1 : Store) :
  dao_get_cart dao username (store w) = (Ok (VList [r1; r2]), s1) ->
  getitem r1 "contents" = Ok c1 -> json_loads c1 = Ok (VList [VInt 1; VInt 2]) ->
  getitem r2 "contents" = Ok c2 -> json_loads c2 = Ok (VList [VInt 2; VInt 3]) ->
  Inv s1 ->
  resolves_to dao Inv (VInt 1) (Some p1) ->
  resolves_to dao Inv (VInt 2) (Some p2) ->
  resolves_to dao Inv (VInt 3) (Some p3) ->
  exists ps order w',
    get_cart dao username w = (Ok ps, w') /\
    Permutation ps [p1; p2; p3] /\
    Permutation order [VInt 1; VInt 2; VInt 3] /\
    calls w' = calls w ++ CGetCart username :: map CGetProduct order.
Proof.
  intros Hdao Hg1 Hj1 Hg2 Hj2 Hinv H1 H2 H3.
  set (res := fun pid : PyVal =>
                if py_eqb pid (VInt 1) then Some p1
                else if py_eqb pid (VInt 2) then Some p2 else Some p3).
  assert (Hids : collect_ids [r1; r2] [] = Ok [VInt 1; VInt 2; VInt 3]).
  { simpl. rewrite (collect_row_ids _ _ _ _ Hg1 Hj1). simpl.
    rewrite (collect_row_ids _ _ _ _ Hg2 Hj2). reflexivity. }
  destruct (get_cart_settled Inv res username _ _ _ w s1 Hdao eq_refl eq_refl Hids Hinv)
    as (w' & Hget & Hcalls & _).
  { intros pid [<- | [<- | [<- | []]]]; assumption. }
  exists (present (map res (set_iter [VInt 1; VInt 2; VInt 3]))),
         (set_iter [VInt 1; VInt 2; VInt 3]), w'.
  split; [exact Hget |]. split; [| split; [apply set_iter_perm | exact Hcalls]].
  change [p1; p2; p3] with (present (map res [VInt 1; VInt 2; VInt 3])).
  unfold present. apply Permutation_flat_map, Permutation_map, set_iter_perm.
Qed.

(** *** What crosses the boundary of the module *)

(** [get_cart] makes its call to the DAO outside any [try]: what that
    call raises, [get_cart] raises. *)
Lemma get_cart_propagates (username : PyVal) (w : World Store) (e : exn) (s1 : Store) :
  dao_get_cart dao username (store w) = (Raise e, s1) ->
  get_cart dao username w = (Raise e, mkWorld s1 (calls w ++ [CGetCart username])).
Proof. intros H. rewrite get_cart_eq, H. reflexivity. Qed.

(** So does the loop over what the DAO answered, when that cannot be
    iterated. *)
Lemma get_cart_not_iterable (username v : PyVal) (w : World Store) (s1 : Store) :
  dao_get_cart dao username (store w) = (Ok v, s1) ->
  truthy v = true -> py_iter v = Raise TypeError ->
  fst (get_cart dao username w) = Raise TypeError.
Proof. intros H Ht Hi. rewrite get_cart_eq, H. simpl. now rewrite Ht, Hi. Qed.

(** The three writes of the cart module answer a boolean, whatever the
    DAO does. *)
Lemma cart_writes_total (username product_id : PyVal) (w : World Store) :
  (exists ok w', add_to_cart dao username product_id w = (Ok ok, w')) /\
  (exists ok w', remove_from_cart dao username product_id w = (Ok ok, w')) /\
  (exists ok w', delete_cart dao username w = (Ok ok, w')).
Proof.
  unfold add_to_cart, remove_from_cart, delete_cart. run.
  destruct (dao_add_to_cart dao username product_id (store w)) as [[v1 | e1] t1].
  all: destruct (dao_remove_from_cart dao username product_id (store w)) as [[v2 | e2] t2].
  all: destruct (dao_delete_cart dao username (store w)) as [[v3 | e3] t3].
  all: simpl; repeat split; eauto.
Qed.

(** The five operations of the products module answer a list, an
    optional Product or booleans, whatever the DAO does. *)
Lemma products_total (product_id qty fields : PyVal) (updates : list (PyVal * PyVal))
      (w : World Store) :
  (exists ps w', list_products dao w = (Ok ps, w')) /\
  (exists o w', get_product dao product_id w = (Ok o, w')) /\
  (exists ok w', add_product dao fields w = (Ok ok, w')) /\
  (exists ok w', update_qty dao product_id qty w = (Ok ok, w')) /\
  (exists results w', batch_update_qty dao updates w = (Ok results, w')).
Proof.
  split; [rewrite list_products_eq; eauto |].
  split; [rewrite get_product_eq; eauto |].
  split.
  { rewrite add_product_eq.
    destruct (ProductClass.from_dict fields) as [p | e]; [| eauto].
    destruct (ProductClass.validate p); eauto. }
  split; [apply update_qty_total |].
  apply batch_loop_total.
Qed.
End CartFacts.

(** ** More on the Product class *)

Section MoreProductFacts.
Context {rt : PyRuntime}.
Import ProductClass.








Lemma dict_lookup_app (d : list (PyVal * PyVal)) (k k' : string) (v : PyVal) :
  dict_lookup (d ++ [(VStr k', v)]) k =
  match dict_lookup d k with
  | Some x => Some x
  | None => if (k' =? k)%string then Some v else None
  end.
Proof.
  induction d as [| [key val] d IH]; simpl; [reflexivity |].
  destruct key; try exact IH.
  destruct (s =? k)%string; [reflexivity | exact IH].
Qed.

Lemma getitem_app_other (d : list (PyVal * PyVal)) (k k' : string) (v : PyVal) :
  (k' =? k)%string = false ->
  getitem (VDict (d ++ [(VStr k', v)])) k = getitem (VDict d) k.
Proof.
  intros Hk. simpl. rewrite dict_lookup_app, Hk.
  destruct (dict_lookup d k); reflexivity.
Qed.

(** X2: fields without the key [qty] parse exactly as the same fields with
    [qty] set to 0: the key is optional, and 0 is its default. *)
Theorem from_dict_default_qty (d : list (PyVal * PyVal)) :
  dict_lookup d "qty" = None ->
  from_dict (VDict d) = from_dict (VDict (d ++ [(VStr "qty", VInt 0)])).
Proof.
  intros Hq. unfold from_dict, build.
  rewrite !getitem_app_other by reflexivity.
  assert (Hd : get_default (VDict (d ++ [(VStr "qty", VInt 0)])) "qty" (VInt 0)
               = get_default (VDict d) "qty" (VInt 0)).
  { simpl. rewrite dict_lookup_app, Hq. reflexivity. }
  rewrite Hd. reflexivity.
Qed.

(** X3: the Product that [from_dict] has built serialises to fields that
    parse back into the same Product. *)
Theorem from_dict_to_dict_stable (fields : PyVal) (p : Product) :
  from_dict fields = Ok p -> from_dict (to_dict p) = Ok p.
Proof.
  intros H. apply from_dict_shape in H.
  destruct H as (i & n & d & c & q & ->). reflexivity.
Qed.

(** X4: on the Product that [from_dict] has built the type tests of
    [validate] all pass, so that [validate] comes down to its four bounds:
    the id above 0, the name not blank, the cost and the qty at least 0. *)
Theorem validate_after_from_dict (fields : PyVal) (p : Product) :
  from_dict fields = Ok p ->
  exists i n d c q,
    p = mkProduct (VInt i) (VStr n) (VStr d) (VFloat c) (VInt q) /\
    (validate p = true <-> 0 < i /\ strip n <> "" /\ float_nonneg c /\ 0 <= q).
Proof.
  intros H. apply from_dict_shape in H.
  destruct H as (i & n & d & c & q & ->).
  exists i, n, d, c, q. split; [reflexivity |].
  rewrite validate_true_iff. simpl. split.
  - intros ((i' & [= <-] & Hi) & (n' & [= <-] & Hn) & _
            & [(c' & [= <-] & Hc) | (z & Hz & _)] & (q' & [= <-] & Hq));
      [tauto | discriminate].
  - intros (Hi & Hn & Hc & Hq).
    repeat split; eauto.
Qed.

(** X5: [validate] also answers false as soon as a field is not of its
    class: on any Product it is true exactly when the id and the qty are
    ints (a bool is one), the name and the description are strs, the cost
    is an int or a float, and the four bounds hold. *)
Theorem validate_checks_types (p : Product) :
  validate p = true <->
  (exists i, int_value (p_id p) = Some i /\ 0 < i) /\
  (exists n, p_name p = VStr n /\ strip n <> "") /\
  (exists d, p_description p = VStr d) /\
  ((exists c, p_cost p = VFloat c /\ float_nonneg c) \/
   (exists z, int_value (p_cost p) = Some z /\ 0 <= z)) /\
  (exists q, int_value (p_qty p) = Some q /\ 0 <= q).
Proof. exact (validate_true_iff p). Qed.
End MoreProductFacts.

(** ** More on products/__init__.py *)

Section MoreProductsFacts.
Context {rt : PyRuntime} {Store : Type} (dao : DAO Store).
Import ProductClass.

(** X6: [get_product] never raises and makes one call, the read of the
    DAO; it answers a Product exactly when the DAO has answered a row that
    is true and parses, and that Product is the parsed row. *)
Theorem get_product_found_iff (product_id : PyVal) (w : World Store) (p : Product) :
  (fst (get_product dao product_id w) = Ok (Some p) <->
   exists row,
     fst (dao_get_product dao product_id (store w)) = Ok row /\
     truthy row = true /\ from_dict row = Ok p) /\
  (exists o, fst (get_product dao product_id w) = Ok o) /\
  calls (snd (get_product dao product_id w)) = calls w ++ [CGetProduct product_id] /\
  store (snd (get_product dao product_id w))
    = snd (dao_get_product dao product_id (store w)).
Proof.
  rewrite get_product_eq. simpl.
  split; [| split; [eauto | split; reflexivity]].
  unfold resolution.
  destruct (fst (dao_get_product dao product_id (store w))) as [row | e].
  - destruct (truthy row) eqn:Ht.
    + destruct (from_dict row) as [p' | e] eqn:Hf.
      * split.
        -- intros [= <-]. now exists row.
        -- intros (row' & [= <-] & _ & Hp). congruence.
      * split; [discriminate |]. intros (row' & [= <-] & _ & Hp). congruence.
    + split; [discriminate |]. intros (row' & [= <-] & Ht' & _). congruence.
  - split; [discriminate |]. intros (row' & Hr & _). discriminate.
Qed.

(** X7: [update_qty] answers true exactly when the quantity is an int
    that is not negative, [get_product] finds the product, and the write
    of the DAO returns; the DAO has then been called twice, for the read
    and then for the write, with the id and the quantity as they were
    given. *)
Theorem update_qty_true_iff (product_id qty : PyVal) (w : World Store) :
  (fst (update_qty dao product_id qty w) = Ok true <->
   (exists z, int_value qty = Some z /\ 0 <= z) /\
   (exists p w1 v s2,
       get_product dao product_id w = (Ok (Some p), w1) /\
       dao_update_qty dao product_id qty (store w1) = (Ok v, s2))) /\
  (fst (update_qty dao product_id qty w) = Ok true ->
   calls (snd (update_qty dao product_id qty w))
     = calls w ++ [CGetProduct product_id; CUpdateQty product_id qty]).
Proof.
  rewrite update_qty_eq.
  destruct (negb (isinstance_int qty) || int_lt0 qty) eqn:Hq.
  - split; [split; [discriminate |] | discriminate].
    intros ((z & Hz & Hz0) & _). exfalso.
    unfold isinstance_int, int_lt0 in Hq. rewrite Hz in Hq. simpl in Hq.
    apply Z.ltb_lt in Hq. lia.
  - destruct (get_product dao product_id w) as [[[p |] | e] w1] eqn:Hg.
    + pose proof (get_product_eq dao product_id w) as Hw1.
      rewrite Hg in Hw1. injection Hw1 as _ Hw1.
      destruct (dao_update_qty dao product_id qty (store w1)) as [[v | e] s2] eqn:Hu;
        simpl.
      * split.
        -- split; [| reflexivity]. intros _.
           split; [now apply nonneg_int | now exists p, w1, v, s2].
        -- intros _. rewrite Hw1. simpl. now rewrite <- app_assoc.
      * split; [split; [discriminate |] | discriminate].
        intros (_ & p' & w1' & v & s2' & [= _ <-] & Hu'). congruence.
    + split; [split; [discriminate |] | discriminate].
      intros (_ & p' & w1' & v & s2' & Hg' & _). discriminate.
    + split; [split; [discriminate |] | discriminate].
      intros (_ & p' & w1' & v & s2' & Hg' & _). discriminate.
Qed.

(** X8: what [add_product] hands to the DAO is never the fields it was
    given but the Product parsed from them, serialised: a dict of exactly
    the five keys, with an int id above 0, a str name that is not blank, a
    str description, a float cost and an int qty, both at least 0. *)
Theorem add_product_persists_valid_only (fields d : PyVal) (w : World Store) :
  calls (snd (add_product dao fields w)) = calls w ++ [CAddProduct d] ->
  exists i n desc c q,
    d = VDict [ (VStr "id", VInt i); (VStr "name", VStr n);
                (VStr "description", VStr desc); (VStr "cost", VFloat c);
                (VStr "qty", VInt q) ] /\
    0 < i /\ strip n <> "" /\ float_nonneg c /\ 0 <= q.
Proof.
  rewrite add_product_eq.
  destruct (from_dict fields) as [p | e] eqn:Hf;
    [| intros H; exfalso; exact (calls_grow _ _ H)].
  destruct (validate p) eqn:Hv; [| intros H; exfalso; exact (calls_grow _ _ H)].
  simpl. intros H. apply app_inv_head in H. injection H as <-.
  apply from_dict_shape in Hf. destruct Hf as (i & n & desc & c & q & ->).
  exists i, n, desc, c, q. split; [reflexivity |].
  apply validate_true_iff in Hv. simpl in Hv.
  destruct Hv as ((i' & [= <-] & Hi) & (n' & [= <-] & Hn) & _
                  & [(c' & [= <-] & Hc) | (z & Hz & _)] & (q' & [= <-] & Hq));
    [tauto | discriminate].
Qed.

(** *** The calls of a batch *)

Lemma update_qty_calls (product_id qty : PyVal) (w : World Store) :
  exists evs,
    calls (snd (update_qty dao product_id qty w)) = calls w ++ evs /\
    Forall (entry_call product_id qty) evs.
Proof.
  rewrite update_qty_eq.
  destruct (negb (isinstance_int qty) || int_lt0 qty) eqn:Hq.
  - exists []. simpl. rewrite app_nil_r. split; [reflexivity | constructor].
  - rewrite get_product_eq. destruct (resolution _); simpl.
    + exists [CGetProduct product_id; CUpdateQty product_id qty].
      split; [now rewrite <- app_assoc |].
      constructor; [now left |].
      constructor; [| constructor].
      right. split; [reflexivity | now apply nonneg_int].
    + exists [CGetProduct product_id]. split; [reflexivity |].
      constructor; [now left | constructor].
Qed.

Lemma batch_loop_calls (items : list (PyVal * PyVal)) :
  forall (acc : list (PyVal * bool)) (w : World Store),
  exists evs,
    calls (snd (batch_loop dao items acc w)) = calls w ++ evs /\
    Forall (fun c => exists product_id qty,
                       In (product_id, qty) items /\ entry_call product_id qty c) evs.
Proof.
  induction items as [| [pid qty] rest IH]; intros acc w; simpl.
  - exists []. rewrite app_nil_r. split; [reflexivity | constructor].
  - unfold bind.
    destruct (update_qty_calls pid qty w) as (evs1 & Hc1 & Hf1).
    destruct (update_qty_total dao pid qty w) as (ok & w1 & Hu).
    rewrite Hu in *. simpl in Hc1.
    destruct (IH (dict_set acc pid ok) w1) as (evs2 & Hc2 & Hf2).
    exists (evs1 ++ evs2). split.
    + rewrite Hc2, Hc1. now rewrite app_assoc.
    + apply Forall_app. split.
      * eapply Forall_impl; [| exact Hf1].
        intros c Hc. exists pid, qty. split; [now left | exact Hc].
      * eapply Forall_impl; [| exact Hf2].
        intros c (pid' & qty' & Hin & Hc). exists pid', qty'. split; [now right | exact Hc].
Qed.

(** X9: every call that [batch_update_qty] makes to the DAO belongs to an
    entry of the mapping: it is the lookup of the id of the entry, or the
    write of its quantity to its id, and only a quantity that is an int
    and not negative is ever written. *)
Theorem batch_update_qty_calls (updates : list (PyVal * PyVal)) (w : World Store) :
  exists evs,
    calls (snd (batch_update_qty dao updates w)) = calls w ++ evs /\
    Forall (fun c => exists product_id qty,
                       In (product_id, qty) updates /\ entry_call product_id qty c) evs.
Proof. apply batch_loop_calls. Qed.

(** *** Batches compose *)

Lemma batch_run_det (items : list (PyVal * PyVal)) (w w1 w2 : World Store)
      (r1 r2 : list (PyVal * bool)) :
  batch_run dao items w r1 w1 -> batch_run dao items w r2 w2 -> r1 = r2 /\ w1 = w2.
Proof.
  intros H1. revert r2 w2.
  induction H1 as [w | pid qty rest w ok wa results w' Hu _ IH]; intros r2 w2 H2.
  - inversion H2; subst. now split.
  - inversion H2 as [| ? ? ? ? ok' wa' results' ? Hu' Hrest']; subst.
    rewrite Hu in Hu'. injection Hu' as <- <-.
    destruct (IH _ _ Hrest') as [-> ->]. now split.
Qed.

Lemma batch_run_app (l1 l2 : list (PyVal * PyVal)) (w w1 w2 : World Store)
      (r1 r2 : list (PyVal * bool)) :
  batch_run dao l1 w r1 w1 -> batch_run dao l2 w1 r2 w2 ->
  batch_run dao (l1 ++ l2) w (r1 ++ r2) w2.
Proof.
  induction 1 as [w | pid qty rest w ok wa results w' Hu _ IH]; intros H2; simpl.
  - exact H2.
  - econstructor; [exact Hu | exact (IH H2)].
Qed.

Lemma batch_run_keys (items : list (PyVal * PyVal)) (w w' : World Store)
      (results : list (PyVal * bool)) :
  batch_run dao items w results w' -> map fst results = map fst items.
Proof.
  induction 1 as [w | pid qty rest w ok wa results w' Hu _ IH]; simpl;
    [reflexivity | now rewrite IH].
Qed.

Lemma distinct_keys_app {A} (l1 l2 : list (PyVal * A)) :
  distinct_keys (l1 ++ l2) -> distinct_keys l1 /\ distinct_keys l2.
Proof.
  induction l1 as [| [k v] l1 IH]; simpl; [tauto |].
  intros [Hk Hrest]. destruct (IH Hrest) as [H1 H2].
  repeat split; try assumption.
  intros k' Hk'. apply Hk. rewrite map_app. apply in_or_app. now left.
Qed.

Lemma batch_update_qty_run (items : list (PyVal * PyVal)) (w : World Store) :
  distinct_keys items ->
  exists results w',
    batch_update_qty dao items w = (Ok results, w') /\
    batch_run dao items w results w'.
Proof.
  intros Hd.
  destruct (batch_loop_run dao items [] w Hd) as (results & w' & Hloop & Hrun).
  - intros k k' [].
  - now exists results, w'.
Qed.

(** X10: a batch over a mapping is the batch over its first entries
    followed by the batch over the others, started in the world that the
    first has left: the results are the two results one after the
    other. *)
Theorem batch_update_qty_app (l1 l2 : list (PyVal * PyVal)) (w : World Store) :
  distinct_keys (l1 ++ l2) ->
  exists r1 w1 r2 w2,
    batch_update_qty dao l1 w = (Ok r1, w1) /\
    batch_update_qty dao l2 w1 = (Ok r2, w2) /\
    batch_update_qty dao (l1 ++ l2) w = (Ok (r1 ++ r2), w2).
Proof.
  intros Hd. destruct (distinct_keys_app _ _ Hd) as [Hd1 Hd2].
  destruct (batch_update_qty_run l1 w Hd1) as (r1 & w1 & Hb1 & Hr1).
  destruct (batch_update_qty_run l2 w1 Hd2) as (r2 & w2 & Hb2 & Hr2).
  destruct (batch_update_qty_run (l1 ++ l2) w Hd) as (r & w' & Hb & Hr).
  destruct (batch_run_det _ _ _ _ _ _ Hr (batch_run_app _ _ _ _ _ _ _ Hr1 Hr2))
    as [-> ->].
  now exists r1, w1, r2, w2.
Qed.

(** X11: the mapping that [batch_update_qty] answers has the keys of the
    mapping it was given, in the same order, and so one result for each
    entry. *)
Theorem batch_update_qty_keys (updates : list (PyVal * PyVal)) (w : World Store) :
  distinct_keys updates ->
  exists results w',
    batch_update_qty dao updates w = (Ok results, w') /\
    map fst results = map fst updates /\
    List.length results = List.length updates.
Proof.
  intros Hd.
  destruct (batch_update_qty_run updates w Hd) as (results & w' & Hb & Hr).
  exists results, w'. split; [exact Hb |].
  pose proof (batch_run_keys _ _ _ _ Hr) as Hk.
  split; [exact Hk |].
  apply (f_equal (@List.length PyVal)) in Hk. now rewrite !length_map in Hk.
Qed.

(** *** list_products *)

Lemma parse_rows_ok_iff (rows : list PyVal) (ps : list Product) :
  parse_rows rows = Ok ps <->
  Forall2 (fun row p => from_dict row = Ok p) (filter truthy rows) ps.
Proof.
  split; [| apply parse_rows_all].
  revert ps. induction rows as [| r rows IH]; intros ps; simpl.
  - intros [= <-]. constructor.
  - destruct (truthy r); [| apply IH].
    destruct (from_dict r) as [p | e] eqn:Hp; simpl; [| discriminate].
    destruct (parse_rows rows) as [ps' | e]; simpl; [| discriminate].
    intros [= <-]. constructor; [exact Hp | now apply IH].
Qed.

(** X12: an answer of [list_products] that is not empty is complete: it
    is the answer exactly when the DAO has returned rows of which every
    one that is true parses, and it holds these parsed rows, each once, in
    the order of the DAO, the rows that are [None] or empty being left
    out. *)
Theorem list_products_nonempty_is_complete (w : World Store) (ps : list Product) :
  ps <> [] ->
  (fst (list_products dao w) = Ok ps <->
   exists v rows,
     fst (dao_list_products dao (store w)) = Ok v /\
     py_iter v = Ok rows /\
     Forall2 (fun row p => from_dict row = Ok p) (filter truthy rows) ps).
Proof.
  intros Hne. rewrite list_products_eq. simpl. split.
  - destruct (fst (dao_list_products dao (store w))) as [v | e];
      [| intros [= <-]; contradiction].
    destruct (py_iter v) as [rows | e] eqn:Hi; [| intros [= <-]; contradiction].
    destruct (parse_rows rows) as [ps' | e] eqn:Hp; [| intros [= <-]; contradiction].
    intros [= <-]. exists v, rows. repeat split; try assumption.
    now apply parse_rows_ok_iff.
  - intros (v & rows & -> & -> & Hp).
    apply parse_rows_ok_iff in Hp. now rewrite Hp.
Qed.
End MoreProductsFacts.

(** ** More on cart/__init__.py *)

Section MoreCartFacts.
Context {rt : PyRuntime} {Store : Type} (dao : DAO Store).

(** X13: [add_to_cart], [remove_from_cart] and [delete_cart] make one
    call each, the write of the DAO with the arguments as they were given,
    and look nothing up before it; none of them raises, each answers true
    exactly when that call has returned, and the store is left as the call
    has left it, also when the call has raised. *)
Theorem cart_writes_one_call (username product_id : PyVal) (w : World Store) :
  add_to_cart dao username product_id w =
    (Ok (is_ok (fst (dao_add_to_cart dao username product_id (store w)))),
     mkWorld (snd (dao_add_to_cart dao username product_id (store w)))
             (calls w ++ [CAddToCart username product_id])) /\
  remove_from_cart dao username product_id w =
    (Ok (is_ok (fst (dao_remove_from_cart dao username product_id (store w)))),
     mkWorld (snd (dao_remove_from_cart dao username product_id (store w)))
             (calls w ++ [CRemoveFromCart username product_id])) /\
  delete_cart dao username w =
    (Ok (is_ok (fst (dao_delete_cart dao username (store w)))),
     mkWorld (snd (dao_delete_cart dao username (store w)))
             (calls w ++ [CDeleteCart username])).
Proof.
  unfold add_to_cart, remove_from_cart, delete_cart, try_except, bind, call, ret.
  destruct (dao_add_to_cart dao username product_id (store w)) as [[v1 | e1] t1].
  all: destruct (dao_remove_from_cart dao username product_id (store w)) as [[v2 | e2] t2].
  all: destruct (dao_delete_cart dao username (store w)) as [[v3 | e3] t3].
  all: repeat split.
Qed.

Lemma resolve_loop_ok (ids : list PyVal) (w : World Store) :
  exists ps w',
    resolve_loop dao ids [] w = (Ok ps, w') /\
    calls w' = calls w ++ map CGetProduct ids /\
    (List.length ps <= List.length ids)%nat.
Proof.
  destruct (resolve_loop_lookups dao ids [] w) as (os & w' & Hloop & Hl).
  exists (present os), w'. split; [exact Hloop |].
  split; [exact (lookups_calls dao _ _ _ _ Hl) |].
  clear Hloop. induction Hl as [w | pid rest w o w1 os w' _ _ IH]; simpl; [lia |].
  unfold present in *. rewrite length_app. destruct o; simpl; lia.
Qed.

(** X14: [get_cart] raises in three cases only: when [dao.get_cart]
    raises, and then what it raises; when [dao.get_cart] answers a value
    that is true and cannot be iterated, and then a [TypeError]; and when
    the first loop raises, which it does exactly when [json.loads] raises,
    on the contents of a row, an error that the [except] clause does not
    name (a plain [ValueError], a [RecursionError]).  No product id makes
    it raise, and no row without contents or with contents that are no
    text or no JSON. *)
Theorem get_cart_raises_iff (username : PyVal) (w : World Store) (e : exn) :
  (fst (get_cart dao username w) = Raise e <->
   fst (dao_get_cart dao username (store w)) = Raise e \/
   (exists v, fst (dao_get_cart dao username (store w)) = Ok v /\
              truthy v = true /\ py_iter v = Raise e /\ e = TypeError) \/
   (exists v details,
       fst (dao_get_cart dao username (store w)) = Ok v /\
       truthy v = true /\ py_iter v = Ok details /\
       collect_ids details [] = Raise e)) /\
  (forall details ids,
      collect_ids details ids = Raise e ->
      exists detail raw,
        In detail details /\ getitem detail "contents" = Ok raw /\
        json_loads raw = Raise e /\ caught e = false) /\
  (forall details ids detail raw,
      In detail details -> getitem detail "contents" = Ok raw ->
      json_loads raw = Raise e -> caught e = false ->
      exists e', collect_ids details ids = Raise e').
Proof.
  split; [| split; [intros details ids; apply collect_ids_raises
                   | intros; eapply collect_ids_uncaught; eauto]].
  rewrite get_cart_eq. simpl.
  destruct (fst (dao_get_cart dao username (store w))) as [v | e0]; simpl.
  - destruct (truthy v) eqn:Ht; simpl.
    + destruct (py_iter v) as [details | e1] eqn:Hi; simpl.
      * destruct (collect_ids details []) as [ids | e2] eqn:Hc; simpl.
        -- destruct (resolve_loop_ok (set_iter ids)
                       (mkWorld (snd (dao_get_cart dao username (store w)))
                                (calls w ++ [CGetCart username])))
             as (ps & w' & -> & _).
           simpl. split; [discriminate |].
           intros [H | [(v' & [= <-] & _ & H & _) | (v' & d' & [= <-] & _ & H & H')]];
             [discriminate | congruence | congruence].
        -- split.
           ++ intros [= <-]. right. right. exists v, details. now repeat split.
           ++ intros [H | [(v' & [= <-] & _ & H & _) | (v' & d' & [= <-] & _ & H & H')]];
                [discriminate | congruence | congruence].
      * split.
        -- intros [= <-]. right. left. exists v. repeat split; try assumption.
           destruct v; simpl in Hi; congruence.
        -- intros [H | [(v' & [= <-] & _ & H & _) | (v' & d' & [= <-] & _ & H & H')]];
             [discriminate | congruence | congruence].
    + split; [discriminate |].
      intros [H | [(v' & [= <-] & Ht' & _) | (v' & d' & [= <-] & Ht' & _)]];
        [discriminate | congruence | congruence].
  - split.
    + intros [= <-]. now left.
    + intros [[= <-] | [(v' & H & _) | (v' & d' & H & _)]];
        [reflexivity | discriminate | discriminate].
Qed.

Lemma reads_are_no_writes (ids : list PyVal) :
  Forall (fun c => is_write c = false) (map CGetProduct ids).
Proof. induction ids; simpl; constructor; [reflexivity | assumption]. Qed.

(** X15: [get_cart], [get_product] and [list_products] never write: the
    calls that they add are reads of the DAO, whatever the DAO answers and
    whether they raise or not; [get_cart] makes one read of the cart and
    then reads of products only. *)
Theorem reads_never_write (username product_id : PyVal) (w : World Store) :
  (exists ids,
      calls (snd (get_cart dao username w))
        = calls w ++ CGetCart username :: map CGetProduct ids) /\
  (exists evs,
      calls (snd (get_cart dao username w)) = calls w ++ evs /\
      Forall (fun c => is_write c = false) evs) /\
  (exists evs,
      calls (snd (get_product dao product_id w)) = calls w ++ evs /\
      Forall (fun c => is_write c = false) evs) /\
  (exists evs,
      calls (snd (list_products dao w)) = calls w ++ evs /\
      Forall (fun c => is_write c = false) evs).
Proof.
  assert (Hcart : exists ids,
             calls (snd (get_cart dao username w))
               = calls w ++ CGetCart username :: map CGetProduct ids).
  { rewrite get_cart_eq. simpl.
    destruct (fst (dao_get_cart dao username (store w))) as [v | e0]; simpl;
      [| now exists []].
    destruct (truthy v); simpl; [| now exists []].
    destruct (py_iter v) as [details | e1]; simpl; [| now exists []].
    destruct (collect_ids details []) as [ids | e2]; simpl; [| now exists []].
    destruct (resolve_loop_ok (set_iter ids)
                (mkWorld (snd (dao_get_cart dao username (store w)))
                         (calls w ++ [CGetCart username])))
      as (ps & w' & -> & Hc & _).
    exists (set_iter ids). simpl. rewrite Hc. simpl. now rewrite <- app_assoc. }
  split; [exact Hcart |]. split; [| split].
  - destruct Hcart as (ids & Hc). eexists. split; [exact Hc |].
    constructor; [reflexivity | apply reads_are_no_writes].
  - rewrite get_product_eq. simpl. eexists. split; [reflexivity |].
    constructor; [reflexivity | constructor].
  - rewrite list_products_eq. simpl. eexists. split; [reflexivity |].
    constructor; [reflexivity | constructor].
Qed.

(** *** Rows that are passed over *)

Lemma collect_row_skipped (ids : list PyVal) (detail : PyVal) :
  skipped detail = true -> collect_row ids detail = Ok ids.
Proof.
  unfold skipped. intros Hs. rewrite collect_row_eq.
  destruct (rbind (getitem detail "contents") (fun raw => json_loads raw));
    [discriminate | now rewrite Hs].
Qed.

(** X16: a row without contents, with contents that are no text, or with
    contents on which [json.loads] raises a [JSONDecodeError], is passed
    over: the first loop of [get_cart] does with the rows what it does
    with the rows that are left when these are taken out, be it to gather
    the ids or to raise on a row whose error the [except] clause does not
    name. *)
Theorem collect_ids_skips_unreadable (details ids : list PyVal) :
  collect_ids (filter (fun detail => negb (skipped detail)) details) ids
  = collect_ids details ids.
Proof.
  revert ids. induction details as [| detail rest IH]; intros ids; simpl;
    [reflexivity |].
  destruct (skipped detail) eqn:Hs; simpl.
  - rewrite (collect_row_skipped _ _ Hs). simpl. apply IH.
  - destruct (collect_row ids detail); simpl; [apply IH | reflexivity].
Qed.

Lemma set_add_all_stops (pre post : list PyVal) (bad : PyVal) :
  forall ids,
    forallb hashable pre = true -> hashable bad = false ->
    fst (set_add_all ids (pre ++ bad :: post)) = fst (set_add_all ids pre).
Proof.
  induction pre as [| x pre IH]; intros ids Hpre Hbad; simpl.
  - now rewrite Hbad.
  - simpl in Hpre. apply andb_true_iff in Hpre. destruct Hpre as [Hx Hpre].
    rewrite Hx. now apply IH.
Qed.

(** X17: a row whose contents decode to a list that holds an unhashable
    member (a list, a dict) gives the set the members before the first
    such one and none after it, and the loop goes on to the next row. *)
Theorem collect_row_keeps_prefix
    (ids : list PyVal) (detail raw bad : PyVal) (pre post : list PyVal) :
  getitem detail "contents" = Ok raw ->
  json_loads raw = Ok (VList (pre ++ bad :: post)) ->
  forallb hashable pre = true ->
  hashable bad = false ->
  collect_row ids detail = Ok (fst (set_add_all ids pre)).
Proof.
  intros Hg Hj Hpre Hbad. rewrite collect_row_eq, Hg. cbn [rbind]. rewrite Hj.
  unfold set_update. cbn [py_iter].
  now rewrite set_add_all_stops.
Qed.

(** *** The answer and the ids of the rows *)

(** X18: in a store where resolution is settled, the answer of [get_cart]
    holds, in some order, what the ids of the rows resolve to, the absent
    ones left out: whatever the order in which the set is iterated, the
    same products come out the same number of times. *)
Theorem get_cart_answer_up_to_order
    (Inv : Store -> Prop) (res : PyVal -> option Product)
    (username cart_details : PyVal) (details ids : list PyVal)
    (w : World Store) (s1 : Store) :
  dao_get_cart dao username (store w) = (Ok cart_details, s1) ->
  truthy cart_details = true ->
  py_iter cart_details = Ok details ->
  collect_ids details [] = Ok ids ->
  Inv s1 ->
  (forall pid, In pid ids -> resolves_to dao Inv pid (res pid)) ->
  exists ps w',
    get_cart dao username w = (Ok ps, w') /\
    Permutation ps (present (map res ids)) /\
    (List.length ps <= List.length ids)%nat.
Proof.
  intros Hdao Ht Hiter Hids Hinv Hres.
  destruct (get_cart_settled dao Inv res _ _ _ _ w s1 Hdao Ht Hiter Hids Hinv Hres)
    as (w' & Hget & _ & _).
  exists (present (map res (set_iter ids))), w'. split; [exact Hget |].
  assert (Hperm : Permutation (present (map res (set_iter ids))) (present (map res ids))).
  { unfold present. apply Permutation_flat_map, Permutation_map, set_iter_perm. }
  split; [exact Hperm |].
  rewrite (Permutation_length Hperm). clear.
  induction ids as [| pid ids IH]; simpl; [lia |].
  unfold present in *. simpl. rewrite length_app. destruct (res pid); simpl; lia.
Qed.

(** X19: when the first loop has read the rows into the set of ids,
    [get_cart] looks up these ids and nothing else: after the read of the
    cart it calls [get_product] once for each member of the set, in the
    order of its iteration; the set has no two members that it takes for
    the same, every id of a row that decodes to a list of hashable values
    is in it, itself or as a member that the set takes for the same, and
    every member was read from the contents of a row. *)
Theorem get_cart_looks_up_the_ids
    (username cart_details : PyVal) (details ids : list PyVal)
    (w : World Store) (s1 : Store) :
  dao_get_cart dao username (store w) = (Ok cart_details, s1) ->
  truthy cart_details = true ->
  py_iter cart_details = Ok details ->
  collect_ids details [] = Ok ids ->
  exists order,
    Permutation order ids /\
    no_equal_members ids /\
    calls (snd (get_cart dao username w))
      = calls w ++ CGetCart username :: map CGetProduct order /\
    (forall detail raw items x,
        In detail details -> getitem detail "contents" = Ok raw ->
        json_loads raw = Ok (VList items) -> forallb hashable items = true ->
        In x items -> represented x order) /\
    (forall y, In y order ->
       exists detail raw contents items,
         In detail details /\ getitem detail "contents" = Ok raw /\
         json_loads raw = Ok contents /\ py_iter contents = Ok items /\ In y items).
Proof.
  intros Hdao Ht Hiter Hids.
  exists (set_iter ids).
  split; [apply set_iter_perm |].
  split; [apply (collect_ids_distinct _ _ _ Hids); constructor |].
  split; [| split].
  - rewrite get_cart_eq, Hdao. simpl. rewrite Ht, Hiter, Hids. simpl.
    destruct (resolve_loop_ok (set_iter ids)
                (mkWorld s1 (calls w ++ [CGetCart username])))
      as (ps & w' & -> & Hc & _).
    simpl. rewrite Hc. simpl. now rewrite <- app_assoc.
  - intros detail raw items x Hin Hg Hj Hall Hx.
    apply (represented_incl x ids).
    + intros y Hy. exact (Permutation_in _ (Permutation_sym (set_iter_perm ids)) Hy).
    + exact (collect_ids_covers _ _ _ _ _ _ Hids Hin Hg Hj Hall x Hx).
  - intros y Hy.
    pose proof (Permutation_in _ (set_iter_perm ids) Hy) as Hy'.
    destruct (collect_ids_only _ _ _ _ Hids Hy') as [[] | H]. exact H.
Qed.
End MoreCartFacts.

(** ** The Cart class *)

Section CartClassFacts.

Lemma ids_of_products (ps : list Product) :
  CartClass.ids_of (map OProduct ps) = Ok (map p_id ps).
Proof. induction ps as [| p ps IH]; simpl; [reflexivity | now rewrite IH]. Qed.

Lemma ids_of_values (x : PyVal) (rest : list PyVal) :
  CartClass.ids_of (map OVal (x :: rest)) = Raise AttributeError.
Proof. reflexivity. Qed.


(** X20: [Cart.from_dict] needs a dict with the keys [id], [username],
    [contents] and [cost], and keeps the four values as they are, without
    any conversion; it raises a [TypeError] on a value that is no dict and
    a [KeyError] on a dict that lacks one of the keys, and these errors
    leave it as they are. *)
Theorem cart_from_dict_outcome (data : PyVal) :
  match CartClass.from_dict data with
  | Ok c =>
      exists i u cs k,
        getitem data "id" = Ok i /\ getitem data "username" = Ok u /\
        getitem data "contents" = Ok cs /\ getitem data "cost" = Ok k /\
        c = mkCart i u (OVal cs) k
  | Raise e =>
      (e = TypeError /\ forall d, data <> VDict d) \/
      (e = KeyError /\
       exists d key, data = VDict d /\
                     In key ["id"; "username"; "contents"; "cost"] /\
                     dict_lookup d key = None)
  end.
Proof.
  destruct data as [| b | z | f | s | l | d];
    try (simpl; left; split; [reflexivity | intros d' H; discriminate]).
  unfold CartClass.from_dict, rbind, getitem.
  destruct (dict_lookup d "id") as [i |] eqn:E1;
    [| right; split; [reflexivity | exists d, "id"; simpl; tauto]].
  destruct (dict_lookup d "username") as [u |] eqn:E2;
    [| right; split; [reflexivity | exists d, "username"; simpl; tauto]].
  destruct (dict_lookup d "contents") as [cs |] eqn:E3;
    [| right; split; [reflexivity | exists d, "contents"; simpl; tauto]].
  destruct (dict_lookup d "cost") as [k |] eqn:E4;
    [| right; split; [reflexivity | exists d, "cost"; simpl; tauto]].
  exists i, u, cs, k. repeat split.
Qed.

(** X21: [Cart.to_dict] on a Cart that holds Products does not raise and
    puts in [contents] the ids of the Products, in their order, in place
    of the Products; [Cart.from_dict] of that dict is the Cart with the
    same id, username and cost, and with these bare ids as its contents. *)
Theorem cart_to_dict_collapses (i u k : PyVal) (ps : list Product) :
  CartClass.to_dict (mkCart i u (OList (map OProduct ps)) k) =
    Ok (VDict [ (VStr "id", i); (VStr "username", u);
                (VStr "contents", VList (map p_id ps)); (VStr "cost", k) ]) /\
  CartClass.from_dict
    (VDict [ (VStr "id", i); (VStr "username", u);
             (VStr "contents", VList (map p_id ps)); (VStr "cost", k) ])
  = Ok (mkCart i u (OVal (VList (map p_id ps))) k).
Proof.
  split; [| reflexivity].
  unfold CartClass.to_dict. simpl. now rewrite ids_of_products.
Qed.

End CartClassFacts.

(** ** Keys that do not count, carts that hold nothing *)

Section FieldsAndEmptyCarts.
Context {rt : PyRuntime} {Store : Type} (dao : DAO Store).

(** X23: [Product.from_dict] reads a dict through its keys [id], [name],
    [description], [cost] and [qty] alone: two dicts that agree on these
    five keys parse alike, whatever the order of their items and whatever
    other keys they hold. *)
Theorem from_dict_reads_five_keys (d1 d2 : list (PyVal * PyVal)) :
  (forall k, In k ["id"; "name"; "description"; "cost"; "qty"] ->
             dict_lookup d1 k = dict_lookup d2 k) ->
  ProductClass.from_dict (VDict d1) = ProductClass.from_dict (VDict d2).
Proof.
  intros H.
  unfold ProductClass.from_dict, ProductClass.build, getitem, get_default.
  rewrite (H "id"), (H "name"), (H "description"), (H "cost"), (H "qty")
    by (simpl; tauto).
  reflexivity.
Qed.

Lemma collect_ids_all_skipped (details : list PyVal) :
  forall ids, forallb skipped details = true -> collect_ids details ids = Ok ids.
Proof.
  induction details as [| detail rest IH]; intros ids; simpl; [reflexivity |].
  intros H. apply andb_true_iff in H. destruct H as [Hd Hrest].
  rewrite (collect_row_skipped _ _ Hd). simpl. now apply IH.
Qed.

(** X24: when the DAO answers no row for the user ([None], an empty
    list), or rows that are all passed over (no contents, contents that
    are no text, or a [JSONDecodeError] from [json.loads]), [get_cart]
    answers the empty list and looks no product up: its one call is the
    read of the cart. *)
Theorem get_cart_of_nothing
    (username cart_details : PyVal) (w : World Store) (s1 : Store) :
  dao_get_cart dao username (store w) = (Ok cart_details, s1) ->
  (truthy cart_details = false \/
   exists details,
     py_iter cart_details = Ok details /\ forallb skipped details = true) ->
  get_cart dao username w = (Ok [], mkWorld s1 (calls w ++ [CGetCart username])).
Proof.
  intros Hdao Hnone. rewrite get_cart_eq, Hdao. simpl.
  destruct (truthy cart_details) eqn:Ht; simpl; [| reflexivity].
  destruct Hnone as [Hf | (details & Hiter & Hun)]; [discriminate |].
  rewrite Hiter, (collect_ids_all_skipped _ _ Hun), set_iter_nil. reflexivity.
Qed.
End FieldsAndEmptyCarts.

(** ** The code on concrete stores *)

Import Reference.

Lemma from_dict_to_dict_roundtrip_witness :
  getitem shuffled_fields "id" = Ok (VInt 7) /\
  exists p,
    ProductClass.from_dict shuffled_fields = Ok p /\
    getitem (ProductClass.to_dict p) "cost" = getitem shuffled_fields "cost".
Proof.
  split; [reflexivity |].
  destruct (from_dict_to_dict_roundtrip shuffled_fields 7 "nut" "" one_and_a_half 2
              eq_refl eq_refl eq_refl eq_refl eq_refl) as (p & Hp & _ & Hk).
  exists p. split; [exact Hp |]. apply Hk. simpl. tauto.
Defined.

Lemma mem_resolves (id : Z) (t : Tables) :
  fst (mem_get_product (VInt id) t) = Ok (widget id) ->
  resolves_to mem_dao (fun s => s = t) (VInt id) (Some (widget_product id)).
Proof.
  intros Hrow w Hw.
  exists (mkWorld t (calls w ++ [CGetProduct (VInt id)])).
  rewrite get_product_eq. simpl. rewrite Hw.
  simpl in Hrow. injection Hrow as ->.
  split; reflexivity.
Defined.

Lemma get_cart_unions_rows_witness :
  exists ps order w',
    get_cart mem_dao (VStr "alice") (start shop) = (Ok ps, w') /\
    Permutation ps [widget_product 1; widget_product 2; widget_product 3] /\
    Permutation order [VInt 1; VInt 2; VInt 3] /\
    calls w' = calls (start shop) ++ CGetCart (VStr "alice") :: map CGetProduct order.
Proof.
  apply (get_cart_unions_rows mem_dao (fun s => s = shop) (VStr "alice")
           (cart_row 1 (VStr "alice") "[1, 2]") (cart_row 2 (VStr "alice") "[2, 3]")
           (VStr "[1, 2]") (VStr "[2, 3]")
           (widget_product 1) (widget_product 2) (widget_product 3)
           (start shop) shop);
    try reflexivity; apply mem_resolves; reflexivity.
Defined.


(** The cart of alice names 1 and 99; only product 1 exists, and the
    answer holds it alone, after one lookup for each of the two ids. *)
Example get_cart_stale_id :
  get_cart mem_dao (VStr "alice") (start stale_shop) =
    (Ok [widget_product 1],
     mkWorld stale_shop
             [CGetCart (VStr "alice"); CGetProduct (VInt 1); CGetProduct (VInt 99)]).
Proof. reflexivity. Qed.

(** The order in which the set is iterated is the order of the answer. *)
Example get_cart_other_order :
  fst (@get_cart runtime_rev _ mem_dao (VStr "alice") (start shop)) =
    Ok [widget_product 3; widget_product 2; widget_product 1].
Proof. reflexivity. Qed.

Lemma batch_update_qty_independent_witness :
  distinct_keys [(VInt 1, VInt 10); (VInt 2, VInt (-1))] /\
  (exists results w',
      batch_update_qty mem_dao [(VInt 1, VInt 10); (VInt 2, VInt (-1))] (start stale_shop)
        = (Ok results, w') /\
      batch_run mem_dao [(VInt 1, VInt 10); (VInt 2, VInt (-1))] (start stale_shop)
                results w') /\
  batch_update_qty mem_dao [(VInt 1, VInt 10); (VInt 2, VInt (-1))] (start stale_shop) =
    (Ok [(VInt 1, true); (VInt 2, false)],
     mkWorld (mkTables (cart_rows stale_shop)
                       [product_row 1 "widget" "a widget" five 10])
             [CGetProduct (VInt 1); CUpdateQty (VInt 1) (VInt 10)]).
Proof.
  assert (Hd : distinct_keys [(VInt 1, VInt 10); (VInt 2, VInt (-1))]).
  { simpl. repeat split; intros k' Hk;
      [destruct Hk as [<- | []]; reflexivity | contradiction]. }
  split; [exact Hd |].
  split.
  - exact (proj1 (batch_update_qty_independent mem_dao
                    [(VInt 1, VInt 10); (VInt 2, VInt (-1))] (start stale_shop)) Hd).
  - exact (proj2 (batch_update_qty_independent mem_dao [] (start stale_shop))
                 (widget_product 1)
                 (mkWorld stale_shop [CGetProduct (VInt 1)]) VNone
                 (mkTables (cart_rows stale_shop)
                           [product_row 1 "widget" "a widget" five 10])
                 eq_refl eq_refl).
Defined.

(** A write that the store makes and then reports as failed:
    [update_qty(1, 3)] answers false, yet [dao.update_qty] has been called
    and the quantity in the store has gone from 4 to 3. *)
Lemma update_qty_false_after_write :
  let w := start stale_shop in
  let out := update_qty lossy_dao (VInt 1) (VInt 3) w in
  fst out = Ok false /\
  In (CUpdateQty (VInt 1) (VInt 3)) (calls (snd out)) /\
  existsb is_write (calls (snd out)) = true /\
  product_rows (store w) = [product_row 1 "widget" "a widget" five 4] /\
  product_rows (store (snd out))
    = [product_row 1 "widget" "a widget" five 3] /\
  store (snd out) <> store w.
Proof.
  cbv zeta. repeat split; try reflexivity.
  - simpl. tauto.
  - intros H. apply (f_equal product_rows) in H. discriminate H.
Qed.

Lemma update_qty_false_cases_witness :
  let w := start stale_shop in
  let w' := snd (update_qty lossy_dao (VInt 1) (VInt 3) w) in
  update_qty lossy_dao (VInt 1) (VInt 3) w = (Ok false, w') /\
  ((negb (isinstance_int (VInt 3)) || int_lt0 (VInt 3) = true /\ w' = w) \/
   (get_product lossy_dao (VInt 1) w = (Ok None, w') /\
    calls w' = calls w ++ [CGetProduct (VInt 1)]) \/
   (exists p w1 e s2,
       get_product lossy_dao (VInt 1) w = (Ok (Some p), w1) /\
       dao_update_qty lossy_dao (VInt 1) (VInt 3) (store w1) = (Raise e, s2) /\
       w' = mkWorld s2 (calls w ++ [CGetProduct (VInt 1); CUpdateQty (VInt 1) (VInt 3)]))).
Proof.
  cbv zeta. split; [reflexivity |].
  apply (update_qty_false_cases lossy_dao (VInt 1) (VInt 3) (start stale_shop)).
  reflexivity.
Defined.

(** A quantity that is refused reaches the DAO with no call at all, and a
    product that is not found with the read alone. *)
Example update_qty_refusals :
  update_qty mem_dao (VInt 1) (VInt (-1)) (start stale_shop)
    = (Ok false, start stale_shop) /\
  update_qty mem_dao (VInt 1) (VStr "3") (start stale_shop)
    = (Ok false, start stale_shop) /\
  update_qty mem_dao (VInt 2) (VInt 3) (start stale_shop)
    = (Ok false, mkWorld stale_shop [CGetProduct (VInt 2)]) /\
  fst (update_qty mem_dao (VInt 1) (VInt 3) (start stale_shop)) = Ok true.
Proof. repeat split. Qed.

(** C2: on a store that cannot be reached, [get_cart("alice")] does not
    answer a sequence: the error that [dao.get_cart] raises leaves
    [get_cart] as it is and crosses the boundary of the cart module, while
    each of the eight other operations, on the same store, catches the
    error of its own call and answers its negative result. *)
Theorem get_cart_lets_dao_failure_escape :
  get_cart unreachable_dao (VStr "alice") (start tt) =
    (Raise (StoreError "unreachable"), mkWorld tt [CGetCart (VStr "alice")]) /\
  fst (add_to_cart unreachable_dao (VStr "alice") (VInt 1) (start tt)) = Ok false /\
  fst (remove_from_cart unreachable_dao (VStr "alice") (VInt 1) (start tt)) = Ok false /\
  fst (delete_cart unreachable_dao (VStr "alice") (start tt)) = Ok false /\
  fst (list_products unreachable_dao (start tt)) = Ok [] /\
  fst (get_product unreachable_dao (VInt 1) (start tt)) = Ok None /\
  fst (add_product unreachable_dao (widget 1) (start tt)) = Ok false /\
  fst (update_qty unreachable_dao (VInt 1) (VInt 3) (start tt)) = Ok false /\
  fst (batch_update_qty unreachable_dao [(VInt 1, VInt 3)] (start tt))
    = Ok [(VInt 1, false)].
Proof.
  split; [reflexivity |].
  repeat split.
Qed.

(** A Product that parses and does not validate is not handed to the DAO;
    one that validates is, serialised. *)
Example add_product_examples :
  add_product mem_dao (product_row 0 "widget" "" (S754_zero false) 1) (start shop)
    = (Ok false, start shop) /\
  add_product mem_dao (VDict [(VStr "id", VInt 9)]) (start shop)
    = (Ok false, start shop) /\
  calls (snd (add_product mem_dao (widget 9) (start shop)))
    = [CAddProduct (widget 9)].
Proof. repeat split. Qed.

(** The doubles of the examples are doubles. *)
Example doubles_valid :
  valid_binary prec64 emax64 five = true /\
  valid_binary prec64 emax64 one_and_a_half = true.
Proof. split; reflexivity. Qed.

(** A cost given as an int is converted by [float]: the double that comes
    back equals the int when a double can hold it, and is the nearest
    double otherwise; an int beyond the doubles is refused. *)
Example int_cost_is_converted :
  (exists f, float_of_int 10 = Ok f /\ py_eqb (VFloat f) (VInt 10) = true) /\
  (exists f, float_of_int (2 ^ 53 + 1) = Ok f /\
             py_eqb (VFloat f) (VInt (2 ^ 53)) = true /\
             py_eqb (VFloat f) (VInt (2 ^ 53 + 1)) = false) /\
  float_of_int (2 ^ 1024) = Raise OverflowError.
Proof.
  split; [| split].
  - eexists. split; reflexivity.
  - eexists. repeat split; reflexivity.
  - reflexivity.
Qed.

(** Values that convert are taken whatever their type: text that reads as
    an int for the id, any value for the name; a missing [qty] is 0. *)
Example from_dict_converts :
  ProductClass.from_dict
    (VDict [ (VStr "id", VStr "12"); (VStr "name", VInt 5);
             (VStr "description", VNone); (VStr "cost", VFloat five) ])
  = Ok (mkProduct (VInt 12) (VStr "5") (VStr "None") (VFloat five) (VInt 0)).
Proof. reflexivity. Qed.

(** ** More of the code on concrete stores *)


(** A cost that is an int beyond the doubles is the one failure that is
    no [ValueError]. *)
Example from_dict_overflow :
  ProductClass.from_dict
    (VDict [ (VStr "id", VInt 1); (VStr "name", VStr "widget");
             (VStr "description", VStr ""); (VStr "cost", VInt (2 ^ 1024)) ])
  = Raise OverflowError.
Proof. reflexivity. Qed.

Lemma from_dict_default_qty_witness :
  dict_lookup fields_without_qty "qty" = None /\
  ProductClass.from_dict (VDict fields_without_qty)
    = Ok (mkProduct (VInt 3) (VStr "bolt") (VStr "M4") (VFloat five) (VInt 0)) /\
  ProductClass.from_dict (VDict fields_without_qty)
    = ProductClass.from_dict (VDict (fields_without_qty ++ [(VStr "qty", VInt 0)])).
Proof.
  split; [reflexivity |]. split; [reflexivity |].
  exact (from_dict_default_qty fields_without_qty eq_refl).
Defined.

Lemma from_dict_to_dict_stable_witness :
  ProductClass.from_dict shuffled_fields
    = Ok (mkProduct (VInt 7) (VStr "nut") (VStr "") (VFloat one_and_a_half) (VInt 2)) /\
  ProductClass.from_dict
    (ProductClass.to_dict
       (mkProduct (VInt 7) (VStr "nut") (VStr "") (VFloat one_and_a_half) (VInt 2)))
    = Ok (mkProduct (VInt 7) (VStr "nut") (VStr "") (VFloat one_and_a_half) (VInt 2)).
Proof.
  split; [reflexivity |].
  exact (from_dict_to_dict_stable shuffled_fields _ eq_refl).
Defined.

Lemma validate_after_from_dict_witness :
  ProductClass.from_dict (widget 1) = Ok (widget_product 1) /\
  exists i n d c q,
    widget_product 1 = mkProduct (VInt i) (VStr n) (VStr d) (VFloat c) (VInt q) /\
    (ProductClass.validate (widget_product 1) = true <->
     0 < i /\ strip n <> "" /\ float_nonneg c /\ 0 <= q).
Proof.
  split; [reflexivity |].
  exact (validate_after_from_dict (widget 1) (widget_product 1) eq_refl).
Defined.

Lemma add_product_persists_valid_only_witness :
  calls (snd (add_product mem_dao (widget 9) (start shop)))
    = calls (start shop) ++ [CAddProduct (widget 9)] /\
  exists i n desc c q,
    widget 9 = VDict [ (VStr "id", VInt i); (VStr "name", VStr n);
                       (VStr "description", VStr desc); (VStr "cost", VFloat c);
                       (VStr "qty", VInt q) ] /\
    0 < i /\ strip n <> "" /\ float_nonneg c /\ 0 <= q.
Proof.
  split; [reflexivity |].
  exact (add_product_persists_valid_only mem_dao (widget 9) (widget 9) (start shop)
           eq_refl).
Defined.

Lemma two_entries_distinct :
  distinct_keys ([(VInt 1, VInt 10)] ++ [(VInt 2, VInt (-1))]).
Proof.
  simpl. repeat split; intros k' Hk;
    [destruct Hk as [<- | []]; reflexivity | contradiction].
Defined.

Lemma batch_update_qty_app_witness :
  distinct_keys ([(VInt 1, VInt 10)] ++ [(VInt 2, VInt (-1))]) /\
  exists r1 w1 r2 w2,
    batch_update_qty mem_dao [(VInt 1, VInt 10)] (start stale_shop) = (Ok r1, w1) /\
    batch_update_qty mem_dao [(VInt 2, VInt (-1))] w1 = (Ok r2, w2) /\
    batch_update_qty mem_dao ([(VInt 1, VInt 10)] ++ [(VInt 2, VInt (-1))])
                     (start stale_shop) = (Ok (r1 ++ r2), w2).
Proof.
  split; [exact two_entries_distinct |].
  exact (batch_update_qty_app mem_dao [(VInt 1, VInt 10)] [(VInt 2, VInt (-1))]
           (start stale_shop) two_entries_distinct).
Defined.

Lemma batch_update_qty_keys_witness :
  distinct_keys [(VInt 1, VInt 10); (VInt 2, VInt (-1))] /\
  exists results w',
    batch_update_qty mem_dao [(VInt 1, VInt 10); (VInt 2, VInt (-1))] (start stale_shop)
      = (Ok results, w') /\
    map fst results = [VInt 1; VInt 2] /\
    List.length results = 2%nat.
Proof.
  split; [exact two_entries_distinct |].
  exact (batch_update_qty_keys mem_dao [(VInt 1, VInt 10); (VInt 2, VInt (-1))]
           (start stale_shop) two_entries_distinct).
Defined.

Lemma list_products_nonempty_is_complete_witness :
  [widget_product 1; widget_product 2; widget_product 3] <> [] /\
  fst (list_products mem_dao (start shop))
    = Ok [widget_product 1; widget_product 2; widget_product 3] /\
  exists v rows,
    fst (dao_list_products mem_dao (store (start shop))) = Ok v /\
    py_iter v = Ok rows /\
    Forall2 (fun row p => ProductClass.from_dict row = Ok p) (filter truthy rows)
            [widget_product 1; widget_product 2; widget_product 3].
Proof.
  assert (Hne : [widget_product 1; widget_product 2; widget_product 3] <> [])
    by discriminate.
  split; [exact Hne |]. split; [reflexivity |].
  exact (proj1 (list_products_nonempty_is_complete mem_dao (start shop) _ Hne) eq_refl).
Defined.

(** Rows that are [None] or empty are left out of the answer. *)
Example list_products_skips_empty_rows :
  fst (list_products mem_dao (start (mkTables [] [VNone; widget 1; VDict []; widget 2])))
    = Ok [widget_product 1; widget_product 2].
Proof. reflexivity. Qed.

Lemma collect_row_keeps_prefix_witness :
  @json_loads runtime_nested (VStr "[1, [2], 3]")
    = Ok (VList ([VInt 1] ++ VList [VInt 2] :: [VInt 3])) /\
  @collect_row runtime_nested [] (cart_row 1 (VStr "alice") "[1, [2], 3]")
    = Ok [VInt 1].
Proof.
  split; [reflexivity |].
  exact (@collect_row_keeps_prefix runtime_nested []
           (cart_row 1 (VStr "alice") "[1, [2], 3]") (VStr "[1, [2], 3]")
           (VList [VInt 2]) [VInt 1] [VInt 3] eq_refl eq_refl eq_refl eq_refl).
Defined.

(** Of four rows, one without contents and one that does not decode, the
    ids of the other two are gathered. *)
Example collect_ids_ragged :
  collect_ids ragged_rows [] = Ok [VInt 1; VInt 2; VInt 3] /\
  filter (fun detail => negb (skipped detail)) ragged_rows
    = [cart_row 1 (VStr "alice") "[1, 2]"; cart_row 4 (VStr "alice") "[3]"].
Proof. split; reflexivity. Qed.

Lemma stale_resolution :
  forall pid, In pid [VInt 1; VInt 99] ->
    resolves_to mem_dao (fun s => s = stale_shop) pid
                (if py_eqb pid (VInt 1) then Some (widget_product 1) else None).
Proof.
  intros pid [<- | [<- | []]] w Hw.
  - exists (mkWorld stale_shop (calls w ++ [CGetProduct (VInt 1)])).
    rewrite get_product_eq. simpl. rewrite Hw. split; reflexivity.
  - exists (mkWorld stale_shop (calls w ++ [CGetProduct (VInt 99)])).
    rewrite get_product_eq. simpl. rewrite Hw. split; reflexivity.
Defined.

Lemma get_cart_answer_up_to_order_witness :
  collect_ids (cart_rows stale_shop) [] = Ok [VInt 1; VInt 99] /\
  exists ps w',
    get_cart mem_dao (VStr "alice") (start stale_shop) = (Ok ps, w') /\
    Permutation ps [widget_product 1] /\
    (List.length ps <= 2)%nat.
Proof.
  split; [reflexivity |].
  exact (get_cart_answer_up_to_order mem_dao (fun s => s = stale_shop)
           (fun pid => if py_eqb pid (VInt 1) then Some (widget_product 1) else None)
           (VStr "alice") (VList (cart_rows stale_shop)) (cart_rows stale_shop)
           [VInt 1; VInt 99] (start stale_shop) stale_shop
           eq_refl eq_refl eq_refl eq_refl eq_refl stale_resolution).
Defined.

Lemma get_cart_looks_up_the_ids_witness :
  truthy (VList (cart_rows shop)) = true /\
  collect_ids (cart_rows shop) [] = Ok [VInt 1; VInt 2; VInt 3] /\
  exists order,
    Permutation order [VInt 1; VInt 2; VInt 3] /\
    no_equal_members [VInt 1; VInt 2; VInt 3] /\
    calls (snd (get_cart mem_dao (VStr "alice") (start shop)))
      = calls (start shop) ++ CGetCart (VStr "alice") :: map CGetProduct order /\
    (forall detail raw items x,
        In detail (cart_rows shop) -> getitem detail "contents" = Ok raw ->
        json_loads raw = Ok (VList items) -> forallb hashable items = true ->
        In x items -> represented x order) /\
    (forall y, In y order ->
       exists detail raw contents items,
         In detail (cart_rows shop) /\ getitem detail "contents" = Ok raw /\
         json_loads raw = Ok contents /\ py_iter contents = Ok items /\ In y items).
Proof.
  split; [reflexivity |]. split; [reflexivity |].
  exact (get_cart_looks_up_the_ids mem_dao (VStr "alice") (VList (cart_rows shop))
           (cart_rows shop) [VInt 1; VInt 2; VInt 3] (start shop) shop
           eq_refl eq_refl eq_refl eq_refl).
Defined.


(** A Cart of two Products serialises to their ids. *)
Example alice_cart_to_dict :
  CartClass.to_dict alice_cart
    = Ok (VDict [ (VStr "id", VInt 1); (VStr "username", VStr "alice");
                  (VStr "contents", VList [VInt 1; VInt 2]);
                  (VStr "cost", VFloat five) ]).
Proof. reflexivity. Qed.

Lemma from_dict_reads_five_keys_witness :
  (forall k, In k ["id"; "name"; "description"; "cost"; "qty"] ->
             dict_lookup [ (VStr "id", VInt 7); (VStr "name", VStr "nut");
                           (VStr "description", VStr "");
                           (VStr "cost", VFloat one_and_a_half); (VStr "qty", VInt 2) ] k
             = dict_lookup
                 [ (VStr "qty", VInt 2); (VStr "colour", VStr "red");
                   (VStr "cost", VFloat one_and_a_half);
                   (VStr "description", VStr ""); (VStr "id", VInt 7);
                   (VStr "name", VStr "nut") ] k) /\
  ProductClass.from_dict (product_row 7 "nut" "" one_and_a_half 2)
    = ProductClass.from_dict shuffled_fields.
Proof.
  assert (H : forall k, In k ["id"; "name"; "description"; "cost"; "qty"] ->
             dict_lookup [ (VStr "id", VInt 7); (VStr "name", VStr "nut");
                           (VStr "description", VStr "");
                           (VStr "cost", VFloat one_and_a_half); (VStr "qty", VInt 2) ] k
             = dict_lookup
                 [ (VStr "qty", VInt 2); (VStr "colour", VStr "red");
                   (VStr "cost", VFloat one_and_a_half);
                   (VStr "description", VStr ""); (VStr "id", VInt 7);
                   (VStr "name", VStr "nut") ] k).
  { intros k Hk. simpl in Hk.
    destruct Hk as [<- | [<- | [<- | [<- | [<- | []]]]]]; reflexivity. }
  split; [exact H |].
  exact (from_dict_reads_five_keys _ _ H).
Defined.

Lemma get_cart_of_nothing_witness :
  dao_get_cart mem_dao (VStr "bob") (store (start shop)) = (Ok (VList []), shop) /\
  get_cart mem_dao (VStr "bob") (start shop)
    = (Ok [], mkWorld shop (calls (start shop) ++ [CGetCart (VStr "bob")])) /\
  get_cart mem_dao (VStr "carol")
           (start (mkTables [cart_row 1 (VStr "carol") "oops"] [widget 1]))
    = (Ok [], mkWorld (mkTables [cart_row 1 (VStr "carol") "oops"] [widget 1])
                      [CGetCart (VStr "carol")]).
Proof.
  split; [reflexivity |]. split.
  - exact (get_cart_of_nothing mem_dao (VStr "bob") (VList []) (start shop) shop
             eq_refl (or_introl eq_refl)).
  - exact (get_cart_of_nothing mem_dao (VStr "carol")
             (VList [cart_row 1 (VStr "carol") "oops"])
             (start (mkTables [cart_row 1 (VStr "carol") "oops"] [widget 1]))
             (mkTables [cart_row 1 (VStr "carol") "oops"] [widget 1])
             eq_refl
             (or_intror (ex_intro _ [cart_row 1 (VStr "carol") "oops"]
                                  (conj eq_refl eq_refl)))).
Defined.

(** With a limit of three digits, a row that holds a longer integer makes
    [json.loads] raise a plain [ValueError], which the [except] clause of
    [get_cart] does not name: [get_cart] raises it, before any lookup. *)
Example get_cart_raises_on_long_integer :
  @get_cart (runtime_limited 3) _ mem_dao (VStr "alice")
            (start (mkTables [cart_row 1 (VStr "alice") "[12345]"] [widget 1]))
  = (Raise ValueError,
     mkWorld (mkTables [cart_row 1 (VStr "alice") "[12345]"] [widget 1])
             [CGetCart (VStr "alice")]).
Proof. reflexivity. Qed.

(** A row that holds NaN twice gives the set one member, and one lookup. *)
Example get_cart_nan_once :
  calls (snd (@get_cart runtime_nested _ mem_dao (VStr "alice")
                        (start (mkTables [cart_row 1 (VStr "alice") "[NaN, NaN]"] []))))
  = [CGetCart (VStr "alice"); CGetProduct (VFloat S754_nan)].
Proof. reflexivity. Qed.

(** With the same limit, a name that is an int of more digits is refused
    by [str], and [from_dict] raises its [ValueError]. *)
Example from_dict_name_beyond_limit :
  @ProductClass.from_dict (runtime_limited 3)
    (VDict [ (VStr "id", VInt 1); (VStr "name", VInt 12345);
             (VStr "description", VStr ""); (VStr "cost", VFloat five) ])
  = Raise ValueError.
Proof. reflexivity. Qed.
